(** * bambu-bar: the single-shot printer status poll

    A shallow embedding of [get_bambu_printer_status] (bambu_status.py).
    Python values that come out of [json.loads] are modelled by the type
    [json]; the closure cells
    of the function ([status_data], [message_received_event],
    [connection_error]) are fields of a record that the callbacks update;
    the paho client is a log of the calls made on it; the network loop
    thread is the list of callbacks it runs, split at the moment the
    bounded wait returns.

    JSON numbers with a fraction or an exponent (Python floats) are left
    out of [json]: every number there is an integer, since the strings the
    function builds from a float need [repr]. The arithmetic of lines
    108-110 is embedded for floats too, in [PyNum].  Of the calls on the
    client only [connect_async] is given the choice to raise; [subscribe],
    [publish], [loop_start], [loop_stop] and [disconnect] return. *)

From stdpp Require Import gmap strings list.
From Stdlib Require Import ZArith DecimalString SpecFloat.

#[local] Set Warnings "-register-all".
#[local] Open Scope Z_scope.

(** ** Python values and exceptions *)

(** Exceptions that derive from [Exception]; these are the ones an
    [except Exception] clause catches. *)
Inductive exception :=
  | JSONDecodeError
  | UnicodeDecodeError
  | ValueError
  | TypeError
  | AttributeError
  | RecursionError.

(** What a call on the main thread can propagate. [KeyboardInterrupt]
    derives from [BaseException] only. *)
Inductive raised :=
  | Exc (e : exception)
  | KeyboardInterrupt.

Inductive result (E A : Type) :=
  | Ok (a : A)
  | Raise (e : E).
Arguments Ok {E A} a.
Arguments Raise {E A} e.

Definition rbind {E A B} (r : result E A) (k : A -> result E B) : result E B :=
  match r with
  | Ok a => k a
  | Raise e => Raise e
  end.

Definition rmap {E A B} (f : A -> B) (r : result E A) : result E B :=
  rbind r (fun a => Ok (f a)).

Definition lift_exc {A} (r : result exception A) : result raised A :=
  match r with
  | Ok a => Ok a
  | Raise e => Raise (Exc e)
  end.

Notation "x <-? r ;; k" := (rbind r (fun x => k))
  (at level 100, r at next level, right associativity).

(** The value [json.loads] builds: [dict] with [str] keys, [list], [str],
    [int], [bool], [None]. *)
Inductive json :=
  | JNull
  | JBool (b : bool)
  | JInt (z : Z)
  | JStr (s : string)
  | JArr (l : list json)
  | JObj (m : gmap string json).

Module Py.

(** [str(n)] for an [int]. *)
Definition str_of_int (n : Z) : string := NilZero.string_of_int (Z.to_int n).

(** [needle in hay] for two [str]: the substring test. *)
Fixpoint str_contains (needle hay : string) : bool :=
  String.prefix needle hay ||
  match hay with
  | EmptyString => false
  | String _ rest => str_contains needle rest
  end.

(** [v == s] where [s] is a [str]: only an equal [str] compares equal. *)
Definition eq_str (v : json) (s : string) : bool :=
  match v with
  | JStr t => bool_decide (t = s)
  | _ => false
  end.

(** [bool] is a subclass of [int]: [True] is 1 and [False] is 0. *)
Definition as_int (v : json) : option Z :=
  match v with
  | JInt z => Some z
  | JBool b => Some (if b then 1 else 0)
  | _ => None
  end.

(** [v == n] where [n] is an [int]; never raises. *)
Definition eq_int (v : json) (n : Z) : bool :=
  match as_int v with
  | Some z => bool_decide (z = n)
  | None => false
  end.

(** [v > n] where [n] is an [int]: [TypeError] unless [v] is a number. *)
Definition gt_int (v : json) (n : Z) : result exception bool :=
  match as_int v with
  | Some z => Ok (bool_decide (n < z))
  | None => Raise TypeError
  end.

(** [v // n] and [v % n] for a positive [int] [n]: floor division, and a
    remainder with the sign of [n]. *)
Definition floordiv (v : json) (n : Z) : result exception Z :=
  match as_int v with
  | Some z => Ok (z `div` n)
  | None => Raise TypeError
  end.

Definition mod_ (v : json) (n : Z) : result exception Z :=
  match as_int v with
  | Some z => Ok (z `mod` n)
  | None => Raise TypeError
  end.

(** [v in l] for a list of [str]. *)
Definition in_strs (v : json) (l : list string) : bool :=
  existsb (eq_str v) l.

(** [key in v]: key membership for a [dict], element membership for a
    [list], substring for a [str]; [TypeError] for the values that are
    not containers. *)
Definition contains (key : string) (v : json) : result exception bool :=
  match v with
  | JObj m => Ok (bool_decide (is_Some (m !! key)))
  | JArr l => Ok (existsb (fun x => eq_str x key) l)
  | JStr s => Ok (str_contains key s)
  | JNull | JBool _ | JInt _ => Raise TypeError
  end.

(** [v.get(key, dflt)]: only a [dict] has the method. *)
Definition get (v : json) (key : string) (dflt : json) : result exception json :=
  match v with
  | JObj m => Ok (default dflt (m !! key))
  | _ => Raise AttributeError
  end.

(** Truth value of a value in an [if]. *)
Definition truthy (v : json) : bool :=
  match v with
  | JNull => false
  | JBool b => b
  | JInt z => negb (bool_decide (z = 0))
  | JStr s => negb (bool_decide (s = ""))
  | JArr l => negb (bool_decide (l = []))
  | JObj m => negb (bool_decide (m = ∅))
  end.

Definition truthy_str (s : string) : bool := negb (bool_decide (s = "")).

End Py.

(** ** Numbers, floats included

    What lines 108-110 compute when [remaining_time] is any number
    [json.loads] can give: an [int], or a [float], an IEEE 754 binary64
    value. The right operand is the [int] constant of the source, which
    Python converts to a float when the left operand is one. *)
Module PyNum.

Inductive number :=
  | NInt (z : Z)
  | NFloat (f : spec_float).

Definition prec : Z := 53.
Definition emax : Z := 1024.

(** The float nearest to m * 2^e; exact when m has at most 53 bits. *)
Definition float_of (m e : Z) : spec_float := binary_normalize prec emax m e false.

Definition sign_bit (x : spec_float) : bool :=
  match x with
  | S754_zero s | S754_infinity s | S754_finite s _ _ => s
  | S754_nan => false
  end.

(** C's [if (x)] on a double: [x != 0.0]. *)
Definition nonzero (x : spec_float) : bool := negb (SFeqb x (S754_zero false)).

(** C's [fmod]: the remainder of the magnitudes, exact, with the sign of
    [x]. *)
Definition fmod (x y : spec_float) : spec_float :=
  match x, y with
  | S754_nan, _ | _, S754_nan => S754_nan
  | S754_infinity _, _ => S754_nan
  | _, S754_zero _ => S754_nan
  | S754_zero _, _ => x
  | S754_finite _ _ _, S754_infinity _ => x
  | S754_finite sx mx ex, S754_finite _ my ey =>
      let e := Z.min ex ey in
      let r := (Zpos mx * 2 ^ (ex - e)) `mod` (Zpos my * 2 ^ (ey - e)) in
      binary_normalize prec emax (if sx then - r else r) e sx
  end.

(** C's [floor]. *)
Definition floor (x : spec_float) : spec_float :=
  match x with
  | S754_finite s m e =>
      if bool_decide (0 <= e)
      then x
      else
        let q := Zpos m `div` 2 ^ (- e) in
        let r := Zpos m `mod` 2 ^ (- e) in
        if s
        then binary_normalize prec emax (- (if bool_decide (r = 0) then q else q + 1)) 0 true
        else binary_normalize prec emax q 0 false
  | _ => x
  end.

(** CPython's [_float_div_mod], for a divisor that is not zero: the pair
    [(vx // wx, vx % wx)]. *)
Definition float_divmod (vx wx : spec_float) : spec_float * spec_float :=
  let zero := S754_zero false in
  let one := float_of 1 0 in
  let mod0 := fmod vx wx in
  let div0 := SFdiv prec emax (SFsub prec emax vx mod0) wx in
  let '(mod1, div1) :=
    if nonzero mod0
    then
      if xorb (SFltb wx zero) (SFltb mod0 zero)
      then (SFadd prec emax mod0 wx, SFsub prec emax div0 one)
      else (mod0, div0)
    else (S754_zero (sign_bit wx), div0) in
  let floordiv :=
    if nonzero div1
    then
      let fl := floor div1 in
      if SFltb (float_of 1 (-1)) (SFsub prec emax div1 fl)
      then SFadd prec emax fl one
      else fl
    else S754_zero (sign_bit (SFdiv prec emax vx wx)) in
  (floordiv, mod1).

(** [x > n], [x >= n] and [x <= n] for an [int] constant [n] below 2^53. *)
Definition gt (x : number) (n : Z) : bool :=
  match x with
  | NInt z => bool_decide (n < z)
  | NFloat f => SFltb (float_of n 0) f
  end.

Definition ge (x : number) (n : Z) : bool :=
  match x with
  | NInt z => bool_decide (n <= z)
  | NFloat f => SFleb (float_of n 0) f
  end.

Definition le (x : number) (n : Z) : bool :=
  match x with
  | NInt z => bool_decide (z <= n)
  | NFloat f => SFleb f (float_of n 0)
  end.

(** [x // n] and [x % n] for an [int] constant [n] above 0. *)
Definition floordiv (x : number) (n : Z) : number :=
  match x with
  | NInt z => NInt (z `div` n)
  | NFloat f => NFloat (fst (float_divmod f (float_of n 0)))
  end.

Definition mod_ (x : number) (n : Z) : number :=
  match x with
  | NInt z => NInt (z `mod` n)
  | NFloat f => NFloat (snd (float_divmod f (float_of n 0)))
  end.

(** Lines 108-110, for a report whose gcode_state is RUNNING: the locals
    [hours] and [minutes], when the test on [remaining_time] passes. *)
Definition hours_minutes (remaining_time : number) : option (number * number) :=
  if gt remaining_time 0
  then Some (floordiv remaining_time 60, mod_ remaining_time 60)
  else None.

(** The float 59.5. *)
Definition fifty_nine_and_a_half : number := NFloat (float_of 119 (-1)).

End PyNum.

(** ** The classification of a captured report (lines 102-117) *)

(** The branch the classification takes. [Remaining] carries the locals
    [hours] and [minutes] of the source. *)
Inductive ClassifiedStatus :=
  | Done
  | Remaining (hours minutes : Z)
  | Unknown.

(** The string each [return] of the classification builds. *)
Definition render (c : ClassifiedStatus) : string :=
  match c with
  | Done => "Done"
  | Remaining hours minutes =>
      if bool_decide (0 < hours)
      then Py.str_of_int hours +:+ "h " +:+ Py.str_of_int minutes +:+ "m"
      else Py.str_of_int minutes +:+ " minutes"
  | Unknown => "Unknown"
  end.

Definition done_states : list string := ["FINISH"; "FAILED"; "IDLE"].

(** The body of the [elif status_data:] branch. [and] and [or] evaluate
    their right operand only when the left one does not decide. *)
Definition classify (status_data : json) : result exception ClassifiedStatus :=
  print_data <-? Py.get status_data "print" (JObj ∅) ;;
  remaining_time <-? Py.get print_data "mc_remaining_time" (JInt (-1)) ;;
  gcode_state <-? Py.get print_data "gcode_state" (JStr "") ;;
  if Py.in_strs gcode_state done_states
     || (Py.eq_str gcode_state "RUNNING" && Py.eq_int remaining_time 0)
  then Ok Done
  else
    positive <-? Py.gt_int remaining_time 0 ;;
    if positive && Py.eq_str gcode_state "RUNNING"
    then
      hours <-? Py.floordiv remaining_time 60 ;;
      minutes <-? Py.mod_ remaining_time 60 ;;
      Ok (Remaining hours minutes)
    else Ok Unknown.

(** The string the source returns from that branch. *)
Definition status_string (status_data : json) : result exception string :=
  rmap render (classify status_data).

(** The fields of the print section of a payload, when the payload is a
    mapping whose "print" entry is a mapping. *)
Definition print_fields (payload : json) : option (gmap string json) :=
  match payload with
  | JObj m =>
      match m !! "print" with
      | Some (JObj fields) => Some fields
      | _ => None
      end
  | _ => None
  end.

Definition known_states : list string := done_states ++ ["RUNNING"].

(** The field is absent, or holds an [int] (a [bool] is one). *)
Definition int_or_absent (field : option json) : Prop :=
  match field with
  | None => True
  | Some v => is_Some (Py.as_int v)
  end.

(** The field is absent, or holds a negative [int]. *)
Definition negative_or_absent (field : option json) : Prop :=
  match field with
  | None => True
  | Some v => exists n, Py.as_int v = Some n /\ n < 0
  end.

(** A report as the device sends it. *)
Definition report (fields : gmap string json) : json :=
  JObj {[ "print" := JObj fields ]}.

Definition report_of (gcode_state : json) (remaining_time : json) : json :=
  report {[ "gcode_state" := gcode_state; "mc_remaining_time" := remaining_time ]}.

(** ** The paho client, the wait primitive and the closure cells *)

(** Calls that [get_bambu_printer_status] and its callbacks make on the
    client [client] and on the event [message_received_event], in the
    order they are made. [json.dumps] is not modelled: a publish records
    the document it serialises. *)
Inductive call :=
  | TlsSet
  | TlsInsecureSet (value : bool)
  | UsernamePwSet (username password : string)
  | ConnectAsync (host : string) (port keepalive : Z)
  | LoopStart
  | EventWait (timeout : Z)
  | LoopStop
  | Disconnect
  | Subscribe (topic : string)
  | Publish (topic : string) (payload : json).

(** Lines written by the two [print] calls of [on_message]. *)
Inductive output :=
  | FailedToDecode
  | ErrorProcessing (e : exception).

Record cells := {
  status_data : option json;
  message_received_event : bool;
  connection_error : option string;
  calls : list call;
  loop_running : bool;
  stdout : list output
}.

Definition initial_cells : cells :=
  {| status_data := None;
     message_received_event := false;
     connection_error := None;
     calls := [];
     loop_running := false;
     stdout := [] |}.

Definition record_call (c : call) (st : cells) : cells :=
  {| status_data := status_data st;
     message_received_event := message_received_event st;
     connection_error := connection_error st;
     calls := calls st ++ [c];
     loop_running := loop_running st;
     stdout := stdout st |}.

Definition set_status_data (v : json) (st : cells) : cells :=
  {| status_data := Some v;
     message_received_event := message_received_event st;
     connection_error := connection_error st;
     calls := calls st;
     loop_running := loop_running st;
     stdout := stdout st |}.

(** [message_received_event.set()]: sets the flag, whatever it was. *)
Definition event_set (st : cells) : cells :=
  {| status_data := status_data st;
     message_received_event := true;
     connection_error := connection_error st;
     calls := calls st;
     loop_running := loop_running st;
     stdout := stdout st |}.

Definition set_connection_error (s : string) (st : cells) : cells :=
  {| status_data := status_data st;
     message_received_event := message_received_event st;
     connection_error := Some s;
     calls := calls st;
     loop_running := loop_running st;
     stdout := stdout st |}.

Definition set_loop_running (b : bool) (st : cells) : cells :=
  {| status_data := status_data st;
     message_received_event := message_received_event st;
     connection_error := connection_error st;
     calls := calls st;
     loop_running := b;
     stdout := stdout st |}.

Definition print_line (o : output) (st : cells) : cells :=
  {| status_data := status_data st;
     message_received_event := message_received_event st;
     connection_error := connection_error st;
     calls := calls st;
     loop_running := loop_running st;
     stdout := stdout st ++ [o] |}.

(** A callback the network loop runs. A message is given by what
    [json.loads(msg.payload.decode("utf-8"))] evaluates to: a value, or an
    exception raised on the way. *)
Inductive event :=
  | OnConnect (rc : Z)
  | OnMessage (decoded : result exception json)
  | OnDisconnect (rc : Z)
  | OnConnectFail.

(** What the surroundings of one call decide: whether [connect_async] and
    [wait] raise, which callbacks the loop thread runs before [wait]
    returns, and which it still runs between that return and the end of
    [loop_stop]. Real time is not modelled; the wait has timed out when it
    returns with the flag unset. *)
Record environment := {
  connect_async_raises : option raised;
  during_wait : list event;
  wait_raises : option raised;
  before_loop_stop : list event
}.

(** State and exceptions of the main thread. *)
Definition M (A : Type) : Type := cells -> result raised A * cells.

Definition ret {A} (a : A) : M A := fun st => (Ok a, st).

Definition raise {A} (e : raised) : M A := fun st => (Raise e, st).

Definition bind {A B} (m : M A) (k : A -> M B) : M B :=
  fun st =>
    match m st with
    | (Ok a, st') => k a st'
    | (Raise e, st') => (Raise e, st')
    end.

Definition modify (f : cells -> cells) : M unit := fun st => (Ok tt, f st).

(** [try: body finally: cleanup]: the cleanup runs on both exits of the
    body; an exception of the cleanup replaces the outcome of the body. *)
Definition try_finally {A} (body : M A) (cleanup : M unit) : M A :=
  fun st =>
    let '(r, st1) := body st in
    match cleanup st1 with
    | (Ok _, st2) => (r, st2)
    | (Raise e, st2) => (Raise e, st2)
    end.

Notation "x <-- m ;; k" := (bind m (fun x => k))
  (at level 100, m at next level, right associativity).
Notation "m >> k" := (bind m (fun _ => k))
  (at level 100, k at level 200, right associativity).

Section Session.

Variables (ip serial access_code : string) (timeout : Z).

Definition mqtt_port : Z := 8883.
Definition publish_topic : string := "device/" +:+ serial +:+ "/request".
Definition subscribe_topic : string := "device/" +:+ serial +:+ "/report".
Definition status_payload : json :=
  JObj {[ "pushing" := JObj {[ "sequence_id" := JStr "0"; "command" := JStr "pushall" ]} ]}.

(** *** The callbacks *)

Definition on_connect (rc : Z) (st : cells) : cells :=
  if bool_decide (rc = 0)
  then record_call (Publish publish_topic status_payload)
         (record_call (Subscribe subscribe_topic) st)
  else event_set
         (set_connection_error
            ("Failed to connect, return code " +:+ Py.str_of_int rc) st).

(** The [try] body of [on_message] up to the test of line 49. *)
Definition looks_like_status (decoded : result exception json)
  : result exception (json * bool) :=
  payload <-? decoded ;;
  found <-? Py.contains "print" payload ;;
  Ok (payload, found).

Definition on_message (decoded : result exception json) (st : cells) : cells :=
  match looks_like_status decoded with
  | Ok (payload, true) => event_set (set_status_data payload st)
  | Ok (_, false) => st
  | Raise JSONDecodeError => print_line FailedToDecode st
  | Raise e => print_line (ErrorProcessing e) st
  end.

Definition on_disconnect (rc : Z) (st : cells) : cells := st.

Definition on_connect_fail (st : cells) : cells :=
  event_set (set_connection_error "MQTT connection failed." st).

Definition callback (st : cells) (ev : event) : cells :=
  match ev with
  | OnConnect rc => on_connect rc st
  | OnMessage decoded => on_message decoded st
  | OnDisconnect rc => on_disconnect rc st
  | OnConnectFail => on_connect_fail st
  end.

(** The loop thread runs its callbacks one after the other; it runs none
    unless [loop_start] was called. *)
Definition run_loop (evs : list event) (st : cells) : cells :=
  if loop_running st then foldl callback st evs else st.

(** *** The calls of the main thread *)

Definition client_call (c : call) : M unit := modify (record_call c).

Definition connect_async (env : environment) (host : string) (port keepalive : Z)
  : M unit :=
  client_call (ConnectAsync host port keepalive) >>
  match connect_async_raises env with
  | Some e => raise e
  | None => ret tt
  end.

Definition loop_start : M unit :=
  client_call LoopStart >> modify (set_loop_running true).

(** [message_received_event.wait(timeout=timeout)] returns the flag as
    it is when the wait ends. *)
Definition event_wait (env : environment) : M bool :=
  client_call (EventWait timeout) >>
  modify (run_loop (during_wait env)) >>
  match wait_raises env with
  | Some e => raise e
  | None => fun st => (Ok (message_received_event st), st)
  end.

(** [loop_stop] joins the loop thread: what the thread still runs
    happens before it returns. *)
Definition loop_stop (env : environment) : M unit :=
  modify (run_loop (before_loop_stop env)) >>
  client_call LoopStop >>
  modify (set_loop_running false).

Definition disconnect : M unit := client_call Disconnect.

(** Lines 93-120. *)
Definition resolve (event_triggered : bool) : M string :=
  fun st =>
    if from_option Py.truthy_str false (connection_error st)
    then (Ok "Unknown", st)
    else if negb event_triggered
    then (Ok "Unknown", st)
    else
      match status_data st with
      | Some data =>
          if Py.truthy data
          then (lift_exc (status_string data), st)
          else (Ok "Unknown", st)
      | None => (Ok "Unknown", st)
      end.

Definition get_bambu_printer_status (env : environment) : M string :=
  client_call TlsSet >>
  client_call (TlsInsecureSet true) >>
  client_call (UsernamePwSet "bblp" access_code) >>
  event_triggered <--
    try_finally
      (connect_async env ip mqtt_port 60 >>
       loop_start >>
       event_wait env)
      (loop_stop env >> disconnect) ;;
  resolve event_triggered.

(** One call of the function: what it returns or raises, and the calls
    it made. *)
Definition fetch (env : environment) : result raised string :=
  fst (get_bambu_printer_status env initial_cells).

Definition fetch_calls (env : environment) : list call :=
  calls (snd (get_bambu_printer_status env initial_cells)).

Definition fetch_cells (env : environment) : cells :=
  snd (get_bambu_printer_status env initial_cells).

(** *** Points of a run

    The cells once [loop_start] and the call of [wait] are behind, when
    [wait] returns, and when the loop thread has run its last callback;
    they are defined for the runs in which [connect_async] returns. *)
Definition cells_started : cells :=
  {| status_data := None;
     message_received_event := false;
     connection_error := None;
     calls := [TlsSet; TlsInsecureSet true; UsernamePwSet "bblp" access_code;
               ConnectAsync ip mqtt_port 60; LoopStart; EventWait timeout];
     loop_running := true;
     stdout := [] |}.

Definition cells_at_wait_return (env : environment) : cells :=
  foldl callback cells_started (during_wait env).

Definition cells_at_loop_stop (env : environment) : cells :=
  foldl callback (cells_at_wait_return env) (before_loop_stop env).

(** Every publish in a log of calls is to the request topic and comes
    right after a subscribe to the report topic. *)
Definition publish_follows_subscribe (log : list call) : Prop :=
  forall before topic payload after,
    log = before ++ Publish topic payload :: after ->
    topic = publish_topic /\
    exists earlier, before = earlier ++ [Subscribe subscribe_topic].

(** The calls a callback makes on the client. *)
Definition calls_of_event (ev : event) : list call :=
  match ev with
  | OnConnect rc =>
      if bool_decide (rc = 0)
      then [Subscribe subscribe_topic; Publish publish_topic status_payload]
      else []
  | _ => []
  end.

End Session.

Definition is_publish (c : call) : bool :=
  match c with
  | Publish _ _ => true
  | _ => false
  end.

(** Callbacks that report a connection failure: a refused connection
    ([on_connect] with a return code other than 0) and [on_connect_fail]. *)
Definition is_failure (ev : event) : bool :=
  match ev with
  | OnConnect rc => negb (bool_decide (rc = 0))
  | OnConnectFail => true
  | _ => false
  end.

(** The test of line 49 succeeds on the message: the callback captures it. *)
Definition qualifying (ev : event) : bool :=
  match ev with
  | OnMessage (Ok payload) =>
      match Py.contains "print" payload with
      | Ok true => true
      | _ => false
      end
  | _ => false
  end.

(** The callbacks the loop thread runs in a run where it was started. *)
Definition delivered (env : environment) : list event :=
  during_wait env ++ before_loop_stop env.

Definition error_recorded (st : cells) : bool :=
  from_option Py.truthy_str false (connection_error st).

(** The [finally] block applied to the cells the loop thread leaves. *)
Definition torn_down (st : cells) : cells :=
  record_call Disconnect (set_loop_running false (record_call LoopStop st)).

Definition msg (v : json) : event := OnMessage (Ok v).

Definition quiet (evs : list event) : environment :=
  {| connect_async_raises := None;
     during_wait := evs;
     wait_raises := None;
     before_loop_stop := [] |}.

Definition run_of (during after : list event) : environment :=
  {| connect_async_raises := None;
     during_wait := during;
     wait_raises := None;
     before_loop_stop := after |}.

(** Sample data for the concrete runs below. *)
Definition running_125 : json := report_of (JStr "RUNNING") (JInt 125).
Definition finished : json := report_of (JStr "FINISH") (JInt 0).
Definition paused_null : json := report_of (JStr "PAUSE") JNull.
Definition stray_array : json := JArr [JStr "print"].
Definition sample_fetch : environment -> result raised string :=
  fetch "10.0.0.2" "01S00A000000000" "12345678" 10.
Definition sample_calls : environment -> list call :=
  fetch_calls "10.0.0.2" "01S00A000000000" "12345678" 10.

(** ** Sentences of the specification, as they are worded

    Each is compared below with what the code does. *)

(** Every report outside the Done and Remaining branches is Unknown:
    gcode_state outside the four known strings, or RUNNING with a negative
    or absent mc_remaining_time. *)
Definition unknown_fallback_as_worded : Prop :=
  forall (payload : json) (fields : gmap string json),
    print_fields payload = Some fields ->
    (forall s, fields !! "gcode_state" = Some (JStr s) -> s ∉ known_states) \/
    (fields !! "gcode_state" = Some (JStr "RUNNING") /\
     negative_or_absent (fields !! "mc_remaining_time")) ->
    classify payload = Ok Unknown.

(** The classification returns a variant for every document that has a
    top-level "print" entry, whatever the shape of that entry. *)
Definition classify_total_as_worded : Prop :=
  forall (m : gmap string json),
    is_Some (m !! "print") -> exists c, classify (JObj m) = Ok c.

(** For every strictly positive remaining time of a RUNNING report, hours
    is not negative and minutes lies in 0..59. *)
Definition remaining_range_as_worded : Prop :=
  forall (remaining_time hours minutes : PyNum.number),
    PyNum.hours_minutes remaining_time = Some (hours, minutes) ->
    PyNum.ge hours 0 = true /\
    PyNum.ge minutes 0 = true /\
    PyNum.le minutes 59 = true.

(** A second qualifying message that arrives after the first one does not
    change the result. *)
Definition first_report_decides_as_worded : Prop :=
  forall (ip serial access_code : string) (timeout : Z)
         (evs : list event) (first second : json),
    Forall (fun ev => qualifying ev = false) evs ->
    qualifying (msg first) = true ->
    qualifying (msg second) = true ->
    fetch ip serial access_code timeout (run_of (evs ++ [msg first]) [msg second]) =
    fetch ip serial access_code timeout (run_of (evs ++ [msg first]) []).

(** ** Further observations on a run *)

(** The strings the classification can return. *)
Definition status_shape (s : string) : Prop :=
  s = "Done" \/
  s = "Unknown" \/
  (exists minutes, 1 <= minutes <= 59 /\ s = Py.str_of_int minutes +:+ " minutes") \/
  (exists hours minutes,
     1 <= hours /\ 0 <= minutes <= 59 /\
     s = Py.str_of_int hours +:+ "h " +:+ Py.str_of_int minutes +:+ "m").

(** The fields the classification reads: those of the "print" entry, none
    when the payload has no such entry (the default of the first [get]);
    undefined when the payload or its "print" entry is not a mapping. *)
Definition fields_read (payload : json) : option (gmap string json) :=
  match payload with
  | JObj m =>
      match m !! "print" with
      | None => Some ∅
      | Some (JObj fields) => Some fields
      | Some _ => None
      end
  | _ => None
  end.

Definition count_if {A} (p : A -> bool) (l : list A) : nat :=
  length (List.filter p l).

Definition is_subscribe (c : call) : bool :=
  match c with
  | Subscribe _ => true
  | _ => false
  end.

Definition is_connected (ev : event) : bool :=
  match ev with
  | OnConnect rc => bool_decide (rc = 0)
  | _ => false
  end.

Definition is_disconnect (ev : event) : bool :=
  match ev with
  | OnDisconnect _ => true
  | _ => false
  end.

(** The same surroundings without the [on_disconnect] callbacks. *)
Definition without_disconnects (env : environment) : environment :=
  {| connect_async_raises := connect_async_raises env;
     during_wait := List.filter (fun ev => negb (is_disconnect ev)) (during_wait env);
     wait_raises := wait_raises env;
     before_loop_stop := List.filter (fun ev => negb (is_disconnect ev)) (before_loop_stop env) |}.

(** The exception the [try] block of a run ends with, if any. *)
Definition first_raise (env : environment) : option raised :=
  match connect_async_raises env with
  | Some e => Some e
  | None => wait_raises env
  end.

(** The line [on_message] prints for a message, if it prints one. *)
Definition line_of_event (ev : event) : list output :=
  match ev with
  | OnMessage decoded =>
      match looks_like_status decoded with
      | Ok _ => []
      | Raise JSONDecodeError => [FailedToDecode]
      | Raise e => [ErrorProcessing e]
      end
  | _ => []
  end.

(** ** The menu bar application (bambu_menubar.py)

    [BambuStatusApp] keeps the three settings, the flag [config_loaded],
    the title of the menu bar item and a timer that polls the printer. The
    settings are Python values: a hand-edited state file can put any JSON
    value in them. The state file is given by what [open] followed by
    [json.load] evaluates to, so that a file written by [json.dump] reads
    back as the document written. Calls of [logging] are left out. *)

Inductive alert :=
  | SaveError
  | AppleScriptError
  | OsascriptNotFound
  | UnexpectedError
  | InputError (message : string).

(** [STATE_FILE]: absent, or present and read as a value or with an
    exception. *)
Definition file : Type := option (result exception json).

Record app := {
  printer_ip : json;
  printer_serial : json;
  printer_access_code : json;
  config_loaded : bool;
  title : string;
  timer_running : bool;
  alerts : list alert;
  state_file : file
}.

Definition DEFAULT_PRINTER_IP : json := JStr "".
Definition DEFAULT_PRINTER_SERIAL : json := JStr "".
Definition DEFAULT_PRINTER_ACCESS_CODE : json := JStr "".

Definition set_settings (ip serial code : json) (a : app) : app :=
  {| printer_ip := ip;
     printer_serial := serial;
     printer_access_code := code;
     config_loaded := config_loaded a;
     title := title a;
     timer_running := timer_running a;
     alerts := alerts a;
     state_file := state_file a |}.

Definition set_config_loaded (b : bool) (a : app) : app :=
  {| printer_ip := printer_ip a;
     printer_serial := printer_serial a;
     printer_access_code := printer_access_code a;
     config_loaded := b;
     title := title a;
     timer_running := timer_running a;
     alerts := alerts a;
     state_file := state_file a |}.

Definition set_title (t : string) (a : app) : app :=
  {| printer_ip := printer_ip a;
     printer_serial := printer_serial a;
     printer_access_code := printer_access_code a;
     config_loaded := config_loaded a;
     title := t;
     timer_running := timer_running a;
     alerts := alerts a;
     state_file := state_file a |}.

(** [status_timer.start()] and [status_timer.stop()]. *)
Definition set_timer (b : bool) (a : app) : app :=
  {| printer_ip := printer_ip a;
     printer_serial := printer_serial a;
     printer_access_code := printer_access_code a;
     config_loaded := config_loaded a;
     title := title a;
     timer_running := b;
     alerts := alerts a;
     state_file := state_file a |}.

(** [rumps.alert(...)]. *)
Definition show_alert (x : alert) (a : app) : app :=
  {| printer_ip := printer_ip a;
     printer_serial := printer_serial a;
     printer_access_code := printer_access_code a;
     config_loaded := config_loaded a;
     title := title a;
     timer_running := timer_running a;
     alerts := alerts a ++ [x];
     state_file := state_file a |}.

Definition set_state_file (f : file) (a : app) : app :=
  {| printer_ip := printer_ip a;
     printer_serial := printer_serial a;
     printer_access_code := printer_access_code a;
     config_loaded := config_loaded a;
     title := title a;
     timer_running := timer_running a;
     alerts := alerts a;
     state_file := f |}.

(** The test [self.printer_ip and self.printer_serial and
    self.printer_access_code]. *)
Definition settings_present (a : app) : bool :=
  Py.truthy (printer_ip a) && Py.truthy (printer_serial a) &&
  Py.truthy (printer_access_code a).

Definition _check_config_and_update (a : app) : app :=
  if settings_present a
  then
    if negb (config_loaded a)
    then set_timer true (set_title "3D Bambu: Ready" (set_config_loaded true a))
    else a
  else
    set_title "3D ❓ Login needed"
      (set_config_loaded false
         (if config_loaded a then set_timer false a else a)).

Definition _set_defaults_and_require_login (a : app) : app :=
  set_title "3D ❓ Login needed"
    (set_config_loaded false
       (set_timer false
          (set_settings DEFAULT_PRINTER_IP DEFAULT_PRINTER_SERIAL
             DEFAULT_PRINTER_ACCESS_CODE a))).

(** [v or dflt]. *)
Definition py_or (v dflt : json) : json := if Py.truthy v then v else dflt.

(** The three [get] calls of [load_settings] on what [json.load] gave;
    [get] without a default gives [None] for a missing key. *)
Definition read_settings (loaded : result exception json)
  : result exception (json * json * json) :=
  loaded_state <-? loaded ;;
  ip <-? Py.get loaded_state "printer_ip" JNull ;;
  serial <-? Py.get loaded_state "printer_serial" JNull ;;
  code <-? Py.get loaded_state "printer_access_code" JNull ;;
  Ok (ip, serial, code).

Definition load_settings (a : app) : app :=
  match state_file a with
  | Some content =>
      match read_settings content with
      | Ok (ip, serial, code) =>
          _check_config_and_update
            (set_settings (py_or ip DEFAULT_PRINTER_IP)
               (py_or serial DEFAULT_PRINTER_SERIAL)
               (py_or code DEFAULT_PRINTER_ACCESS_CODE) a)
      | Raise _ => _set_defaults_and_require_login a
      end
  | None => _set_defaults_and_require_login a
  end.

(** [__init__], for a given state file. *)
Definition init (f : file) : app :=
  load_settings
    {| printer_ip := DEFAULT_PRINTER_IP;
       printer_serial := DEFAULT_PRINTER_SERIAL;
       printer_access_code := DEFAULT_PRINTER_ACCESS_CODE;
       config_loaded := false;
       title := "3D ❓ Login needed";
       timer_running := false;
       alerts := [];
       state_file := f |}.

(** Whether the write of [save_settings] goes through; when it raises
    [IOError] the file is left as the failed write left it. *)
Inductive save_outcome :=
  | Written
  | WriteFailed (leftover : file).

Definition state_to_save (a : app) : json :=
  JObj {[ "printer_ip" := printer_ip a;
          "printer_serial" := printer_serial a;
          "printer_access_code" := printer_access_code a ]}.

Definition save_settings (o : save_outcome) (a : app) : app :=
  match o with
  | Written => set_state_file (Some (Ok (state_to_save a))) a
  | WriteFailed leftover => show_alert SaveError (set_state_file leftover a)
  end.

(** What [subprocess.run] does with the dialog: it completes with a
    return code, [process.stdout.strip()] and [process.stderr], or it
    raises. *)
Inductive subprocess_result :=
  | Completed (returncode : Z) (stdout_strip stderr : string)
  | RaisedFileNotFoundError
  | RaisedException.

Definition _run_applescript_input (p : subprocess_result) (a : app)
  : option string * app :=
  match p with
  | Completed returncode stdout_strip stderr =>
      if bool_decide (returncode = 0)
      then (Some stdout_strip, a)
      else if Py.str_contains "__CANCEL__" stderr
      then (None, a)
      else (None, show_alert AppleScriptError a)
  | RaisedFileNotFoundError => (None, show_alert OsascriptNotFound a)
  | RaisedException => (None, show_alert UnexpectedError a)
  end.

(** The three handlers differ in the setting they assign and in the words
    of their messages only. *)
Inductive setting :=
  | IpAddress
  | SerialNumber
  | AccessCode.

Definition assign (s : setting) (v : string) (a : app) : app :=
  match s with
  | IpAddress => set_settings (JStr v) (printer_serial a) (printer_access_code a) a
  | SerialNumber => set_settings (printer_ip a) (JStr v) (printer_access_code a) a
  | AccessCode => set_settings (printer_ip a) (printer_serial a) (JStr v) a
  end.

Definition current (s : setting) (a : app) : json :=
  match s with
  | IpAddress => printer_ip a
  | SerialNumber => printer_serial a
  | AccessCode => printer_access_code a
  end.

Definition empty_message (s : setting) : string :=
  match s with
  | IpAddress => "IP Address cannot be empty."
  | SerialNumber => "Serial Number cannot be empty."
  | AccessCode => "Access Code cannot be empty."
  end.

(** What happens around one click: the dialog and the write. *)
Record click := {
  dialog : subprocess_result;
  saving : save_outcome
}.

Definition set_setting (s : setting) (c : click) (a : app) : app :=
  let stopped := set_timer false a in
  let '(new_val, asked) := _run_applescript_input (dialog c) stopped in
  let processed :=
    match new_val with
    | Some v =>
        if Py.truthy_str v
        then _check_config_and_update (save_settings (saving c) (assign s v asked))
        else show_alert (InputError (empty_message s)) asked
    | None => asked
    end in
  if config_loaded processed then set_timer true processed else processed.

(** The application once a handler has stopped the timer and assigned
    the input. *)
Definition stored_input (s : setting) (v : string) (a : app) : app :=
  assign s v (set_timer false a).

Definition set_ip_address : click -> app -> app := set_setting IpAddress.
Definition set_access_code : click -> app -> app := set_setting AccessCode.

(** The title [update_status] builds from the string returned. *)
Definition title_of_status (status_str : string) : string :=
  if bool_decide (status_str = "Done")
  then "3D ✅ " +:+ status_str
  else if bool_decide (status_str = "Unknown")
  then "3D ❓ " +:+ status_str
  else if Py.str_contains "minutes" status_str || Py.str_contains "h" status_str
  then "3D ⏳ " +:+ status_str
  else "3D ℹ️ " +:+ status_str.

(** The call of line 273. [get_bambu_printer_status] is modelled for the
    [str] arguments its signature asks for; with other arguments the
    outcome [untyped] of the call is given from outside. *)
Definition call_status (env : environment) (untyped : result raised string) (a : app)
  : result raised string :=
  match printer_ip a, printer_serial a, printer_access_code a with
  | JStr ip, JStr serial, JStr code => fetch ip serial code 10 env
  | _, _, _ => untyped
  end.

(** [update_status]: [except Exception] does not catch
    [KeyboardInterrupt]. *)
Definition update_status (env : environment) (untyped : result raised string) (a : app)
  : result raised app :=
  if negb (config_loaded a)
  then Ok (set_title "3D ❓ Login needed" a)
  else
    match call_status env untyped a with
    | Ok status_str => Ok (set_title (title_of_status status_str) a)
    | Raise (Exc _) => Ok (set_title "3D Bambu: Error" a)
    | Raise KeyboardInterrupt => Raise KeyboardInterrupt
    end.

(** The state a running application is in: each setting is a value that
    is true in an [if] or the empty string, the flag says whether the
    three are there, and the timer runs exactly when the flag is set. *)
Definition clean (v : json) : Prop := Py.truthy v = true \/ v = JStr "".

Definition well_formed (a : app) : Prop :=
  clean (printer_ip a) /\ clean (printer_serial a) /\ clean (printer_access_code a) /\
  config_loaded a = settings_present a /\
  timer_running a = config_loaded a.

Definition same_settings (a b : app) : Prop :=
  printer_ip a = printer_ip b /\
  printer_serial a = printer_serial b /\
  printer_access_code a = printer_access_code b.

(** Sample data for the concrete runs of the application. *)
Definition sample_file : file :=
  Some (Ok (JObj {[ "printer_ip" := JStr "10.0.0.2";
                    "printer_serial" := JStr "01S00A000000000";
                    "printer_access_code" := JStr "12345678" ]})).
Definition sample_app : app := init sample_file.
Definition interrupted : environment :=
  {| connect_async_raises := None;
     during_wait := [OnConnect 0];
     wait_raises := Some KeyboardInterrupt;
     before_loop_stop := [] |}.
Definition reconnecting : environment :=
  run_of [OnConnect 0; OnDisconnect 1; OnConnect 0] [].
Definition typed_ip : click :=
  {| dialog := Completed 0 "10.0.0.7" ""; saving := Written |}.
Definition typed_ip_disk_full : click :=
  {| dialog := Completed 0 "10.0.0.7" ""; saving := WriteFailed None |}.

(** ** The classifier *)

Section Classifier.

Implicit Types (payload : json) (fields : gmap string json).

Lemma in_strs_true (s : string) (l : list string) :
  Py.in_strs (JStr s) l = true <-> s ∈ l.
Proof.
  unfold Py.in_strs. rewrite existsb_exists. split.
  - intros (t & Hin & Heq). simpl in Heq.
    apply bool_decide_eq_true in Heq. subst. by apply list_elem_of_In.
  - intros Hin. exists s. split; [by apply list_elem_of_In|].
    simpl. by apply bool_decide_eq_true.
Qed.

Lemma in_strs_false (v : json) (l : list string) :
  (forall s, v = JStr s -> s ∉ l) -> Py.in_strs v l = false.
Proof.
  intros H. destruct (Py.in_strs v l) eqn:E; [|done].
  unfold Py.in_strs in E. apply existsb_exists in E as (t & Hin & Heq).
  destruct v; simpl in Heq; try discriminate.
  apply bool_decide_eq_true in Heq. subst.
  exfalso. eapply H; [done|]. by apply list_elem_of_In.
Qed.

Lemma eq_str_false (v : json) (s : string) :
  (forall t, v = JStr t -> t <> s) -> Py.eq_str v s = false.
Proof.
  intros H. destruct v; simpl; try done.
  apply bool_decide_eq_false. by apply H.
Qed.

Lemma done_states_known (s : string) : s ∈ done_states -> s ∈ known_states.
Proof. intros H. apply elem_of_app. by left. Qed.

Lemma running_known : "RUNNING" ∈ known_states.
Proof. apply elem_of_app. right. apply elem_of_cons. by left. Qed.

Lemma empty_not_known : "" ∉ known_states.
Proof.
  intros H. unfold known_states, done_states in H. simpl in H.
  repeat (apply elem_of_cons in H as [H|H]; [discriminate H|]).
  by apply elem_of_nil in H.
Qed.

(** What "gcode_state is none of the known strings" says about the value
    the classification reads, the default included. *)
Lemma unknown_state_default fields :
  (forall s, fields !! "gcode_state" = Some (JStr s) -> s ∉ known_states) ->
  forall s, default (JStr "") (fields !! "gcode_state") = JStr s -> s ∉ known_states.
Proof.
  intros Hg s. destruct (fields !! "gcode_state") as [g|]; simpl.
  - intros ->. by apply Hg.
  - intros [= <-]. apply empty_not_known.
Qed.

Lemma unknown_state_tests (g : json) :
  (forall s, g = JStr s -> s ∉ known_states) ->
  Py.in_strs g done_states = false /\ Py.eq_str g "RUNNING" = false.
Proof.
  intros Hg. split.
  - apply in_strs_false. intros s Hs Hin.
    apply (Hg s Hs). by apply done_states_known.
  - apply eq_str_false. intros s Hs ->. apply (Hg _ Hs), running_known.
Qed.

(** With a print section that is a mapping, the two [get] calls of the
    fields cannot fail and the classification is a case analysis on the
    two (defaulted) fields. *)
Lemma classify_print_fields payload fields :
  print_fields payload = Some fields ->
  classify payload =
    let remaining_time := default (JInt (-1)) (fields !! "mc_remaining_time") in
    let gcode_state := default (JStr "") (fields !! "gcode_state") in
    if Py.in_strs gcode_state done_states
       || (Py.eq_str gcode_state "RUNNING" && Py.eq_int remaining_time 0)
    then Ok Done
    else
      positive <-? Py.gt_int remaining_time 0 ;;
      if positive && Py.eq_str gcode_state "RUNNING"
      then
        hours <-? Py.floordiv remaining_time 60 ;;
        minutes <-? Py.mod_ remaining_time 60 ;;
        Ok (Remaining hours minutes)
      else Ok Unknown.
Proof.
  destruct payload as [| | | | |m]; simpl; try discriminate.
  destruct (m !! "print") as [[| | | | |fs]|] eqn:Hp; simpl; try discriminate.
  intros [= ->]. unfold classify. simpl. rewrite Hp. reflexivity.
Qed.

Lemma done_for_finished_states_aux payload fields s :
  print_fields payload = Some fields ->
  fields !! "gcode_state" = Some (JStr s) ->
  s ∈ done_states ->
  classify payload = Ok Done /\ status_string payload = Ok "Done".
Proof.
  intros Hf Hg Hs.
  assert (classify payload = Ok Done) as Hc.
  { rewrite (classify_print_fields _ _ Hf). cbv zeta. rewrite Hg. simpl default.
    apply in_strs_true in Hs. by rewrite Hs. }
  split; [done|]. unfold status_string. by rewrite Hc.
Qed.


(** On an [int] the two embeddings of lines 108-110 agree. *)
Lemma hours_minutes_int (n : Z) :
  0 < n ->
  PyNum.hours_minutes (PyNum.NInt n) =
    Some (PyNum.NInt (n `div` 60), PyNum.NInt (n `mod` 60)) /\
  Py.floordiv (JInt n) 60 = Ok (n `div` 60) /\
  Py.mod_ (JInt n) 60 = Ok (n `mod` 60).
Proof.
  intros Hn. unfold PyNum.hours_minutes. simpl.
  by rewrite bool_decide_eq_true_2.
Qed.

(** For an integer remaining time of a RUNNING report, the classification
    takes the Remaining branch with the locals that [PyNum.hours_minutes]
    computes, and in no other case. *)
Lemma classify_agrees_with_hours_minutes payload fields v n hours minutes :
  print_fields payload = Some fields ->
  fields !! "gcode_state" = Some (JStr "RUNNING") ->
  fields !! "mc_remaining_time" = Some v ->
  Py.as_int v = Some n ->
  classify payload = Ok (Remaining hours minutes) <->
  PyNum.hours_minutes (PyNum.NInt n) = Some (PyNum.NInt hours, PyNum.NInt minutes).
Proof.
  intros Hf Hg Hv Hn.
  rewrite (classify_print_fields _ _ Hf). cbv zeta.
  rewrite Hg, Hv. simpl default.
  unfold Py.eq_int, Py.gt_int, Py.floordiv, Py.mod_, PyNum.hours_minutes. rewrite Hn.
  simpl.
  destruct (bool_decide (n = 0)) eqn:H0; simpl.
  - apply bool_decide_eq_true in H0. subst n. simpl. split; discriminate.
  - destruct (bool_decide (0 < n)); simpl.
    + split; intros [= <- <-]; reflexivity.
    + split; discriminate.
Qed.

(** C4, as amended: a report whose gcode_state is RUNNING and whose
    mc_remaining_time is a positive integer n is classified Remaining with
    hours n // 60 and minutes n % 60, returned as "<hours>h <minutes>m"
    when hours is positive and as "<minutes> minutes" otherwise; hours is
    not negative and minutes lies in 0..59; 125 gives 2 and 5 ("2h 5m"),
    45 gives 0 and 45 ("45 minutes"). *)
Theorem remaining_hours_minutes payload fields v n :
  print_fields payload = Some fields ->
  fields !! "gcode_state" = Some (JStr "RUNNING") ->
  fields !! "mc_remaining_time" = Some v ->
  Py.as_int v = Some n ->
  0 < n ->
  classify payload = Ok (Remaining (n `div` 60) (n `mod` 60)) /\
  status_string payload =
    Ok (if bool_decide (0 < n `div` 60)
        then Py.str_of_int (n `div` 60) +:+ "h " +:+ Py.str_of_int (n `mod` 60) +:+ "m"
        else Py.str_of_int (n `mod` 60) +:+ " minutes") /\
  0 <= n `div` 60 /\
  0 <= n `mod` 60 <= 59 /\
  (n = 125 ->
   n `div` 60 = 2 /\ n `mod` 60 = 5 /\ status_string payload = Ok "2h 5m") /\
  (n = 45 ->
   n `div` 60 = 0 /\ n `mod` 60 = 45 /\ status_string payload = Ok "45 minutes").
Proof.
  intros Hf Hg Hv Hn Hpos.
  assert (classify payload = Ok (Remaining (n `div` 60) (n `mod` 60))) as Hc.
  { rewrite (classify_print_fields _ _ Hf). cbv zeta.
    rewrite Hg, Hv. simpl default.
    unfold Py.eq_int, Py.gt_int, Py.floordiv, Py.mod_. rewrite Hn. simpl.
    rewrite (bool_decide_eq_false_2 (n = 0)) by lia.
    rewrite (bool_decide_eq_true_2 (0 < n)) by lia.
    reflexivity. }
  assert (status_string payload =
            Ok (if bool_decide (0 < n `div` 60)
                then Py.str_of_int (n `div` 60) +:+ "h " +:+
                     Py.str_of_int (n `mod` 60) +:+ "m"
                else Py.str_of_int (n `mod` 60) +:+ " minutes")) as Hs.
  { unfold status_string. rewrite Hc. reflexivity. }
  split; [exact Hc|]. split; [exact Hs|].
  split; [apply Z.div_pos; lia|].
  split; [pose proof (Z.mod_pos_bound n 60); lia|].
  split; intros ->; (split; [done|]; split; [done|]); rewrite Hs; reflexivity.
Qed.

(** C5, as amended: a report that matches none of the Done or Remaining
    branches is classified Unknown, when its mc_remaining_time is an
    integer or absent: gcode_state is none of FINISH, FAILED, IDLE and
    RUNNING (absent, or not a string, included), or gcode_state is RUNNING
    with mc_remaining_time negative or absent. *)
Theorem unknown_fallback payload fields :
  print_fields payload = Some fields ->
  ((forall s, fields !! "gcode_state" = Some (JStr s) -> s ∉ known_states) /\
   int_or_absent (fields !! "mc_remaining_time")) \/
  (fields !! "gcode_state" = Some (JStr "RUNNING") /\
   negative_or_absent (fields !! "mc_remaining_time")) ->
  classify payload = Ok Unknown /\ status_string payload = Ok "Unknown".
Proof.
  intros Hf Hcase.
  assert (classify payload = Ok Unknown) as Hc.
  { rewrite (classify_print_fields _ _ Hf). cbv zeta.
    destruct Hcase as [[Hg Hrt]|[Hg Hrt]].
    - destruct (unknown_state_tests _ (unknown_state_default _ Hg)) as [-> ->].
      simpl.
      destruct (fields !! "mc_remaining_time") as [v|]; simpl in *.
      + destruct Hrt as [n Hn]. unfold Py.gt_int. rewrite Hn. simpl.
        by rewrite andb_false_r.
      + reflexivity.
    - rewrite Hg. simpl default.
      destruct (fields !! "mc_remaining_time") as [v|]; simpl in *.
      + destruct Hrt as (n & Hn & Hneg).
        unfold Py.eq_int, Py.gt_int. rewrite Hn. simpl.
        rewrite (bool_decide_eq_false_2 (n = 0)) by lia.
        rewrite (bool_decide_eq_false_2 (0 < n)) by lia.
        reflexivity.
      + reflexivity. }
  split; [done|]. unfold status_string. by rewrite Hc.
Qed.

(** C6, as amended: when the print section of the captured payload is a
    mapping and either gcode_state is FINISH, FAILED or IDLE, or
    mc_remaining_time is an integer or absent, the classification returns
    one of the three variants without raising, whatever gcode_state
    holds; a gcode_state that is not one of the four known strings then
    gives Unknown. *)
Theorem classify_total_on_typed_reports payload fields :
  print_fields payload = Some fields ->
  (exists s, fields !! "gcode_state" = Some (JStr s) /\ s ∈ done_states) \/
  int_or_absent (fields !! "mc_remaining_time") ->
  exists c,
    classify payload = Ok c /\
    status_string payload = Ok (render c) /\
    (c = Done \/ c = Unknown \/
     exists hours minutes,
       c = Remaining hours minutes /\ 0 < hours * 60 + minutes /\ 0 <= minutes <= 59) /\
    ((forall s, fields !! "gcode_state" = Some (JStr s) -> s ∉ known_states) ->
     c = Unknown).
Proof.
  intros Hf Hshape.
  assert (forall c, classify payload = Ok c -> status_string payload = Ok (render c)) as Hs.
  { intros c Hc. unfold status_string. by rewrite Hc. }
  destruct Hshape as [(s & Hg & Hdone)|Hrt].
  { destruct (done_for_finished_states_aux payload fields s Hf Hg Hdone) as [Hc _].
    exists Done. split; [done|]. split; [by apply Hs|]. split; [by left|].
    intros Hno. exfalso. apply (Hno s Hg). by apply done_states_known. }
  pose proof (classify_print_fields _ _ Hf) as Hc. cbv zeta in Hc.
  set (g := default (JStr "") (fields !! "gcode_state")) in *.
  set (rt := default (JInt (-1)) (fields !! "mc_remaining_time")) in *.
  assert (exists n, Py.as_int rt = Some n) as [n Hn].
  { subst rt. destruct (fields !! "mc_remaining_time") as [v|]; simpl in *.
    - destruct Hrt as [n Hn]. eauto.
    - eauto. }
  unfold Py.gt_int, Py.floordiv, Py.mod_ in Hc. rewrite Hn in Hc.
  cbv beta iota delta [rbind] in Hc.
  destruct (Py.in_strs g done_states || Py.eq_str g "RUNNING" && Py.eq_int rt 0) eqn:Hd.
  { exists Done. split; [done|]. split; [by apply Hs|]. split; [by left|].
    intros Hno. exfalso.
    destruct (unknown_state_tests g (unknown_state_default _ Hno)) as [H1 H2].
    rewrite H1, H2 in Hd. discriminate. }
  destruct (bool_decide (0 < n) && Py.eq_str g "RUNNING") eqn:Hr.
  - exists (Remaining (n `div` 60) (n `mod` 60)).
    apply andb_true_iff in Hr as [Hpos Hrun].
    apply bool_decide_eq_true in Hpos.
    split; [done|]. split; [by apply Hs|]. split.
    + right. right. exists (n `div` 60), (n `mod` 60).
      pose proof (Z.mod_pos_bound n 60).
      pose proof (Z.div_mod n 60). split; [done|]. lia.
    + intros Hno. exfalso.
      destruct (unknown_state_tests g (unknown_state_default _ Hno)) as [_ H2].
      rewrite H2 in Hrun. discriminate.
  - exists Unknown. split; [done|]. split; [by apply Hs|]. split; [by right; left|].
    done.
Qed.

End Classifier.

(** ** The session *)

Section SessionFacts.

Context (ip serial access_code : string) (timeout : Z).

Implicit Types (st : cells) (ev : event) (evs : list event) (env : environment).

Local Abbreviation callback := (callback serial).
Local Abbreviation run := (get_bambu_printer_status ip serial access_code timeout).
Local Abbreviation at_wait_return := (cells_at_wait_return ip serial access_code timeout).
Local Abbreviation at_loop_stop := (cells_at_loop_stop ip serial access_code timeout).

(** *** What a callback touches *)

Lemma callback_loop_running st ev :
  loop_running (callback st ev) = loop_running st.
Proof.
  destruct ev as [rc|decoded|rc|]; simpl; try reflexivity.
  - unfold on_connect. by case_bool_decide.
  - unfold on_message.
    destruct (looks_like_status decoded) as [[payload []]|[]]; reflexivity.
Qed.

Lemma callback_calls st ev :
  calls (callback st ev) = calls st ++ calls_of_event serial ev.
Proof.
  destruct ev as [rc|decoded|rc|]; simpl; try by rewrite app_nil_r.
  - unfold on_connect. case_bool_decide; simpl.
    + by rewrite <- app_assoc.
    + by rewrite app_nil_r.
  - unfold on_message.
    destruct (looks_like_status decoded) as [[payload []]|[]];
      simpl; by rewrite app_nil_r.
Qed.

Lemma callbacks_loop_running evs st :
  loop_running (foldl callback st evs) = loop_running st.
Proof.
  revert st. induction evs as [|ev evs IH]; intros st; simpl; [done|].
  by rewrite IH, callback_loop_running.
Qed.

Lemma callbacks_calls evs st :
  calls (foldl callback st evs) = calls st ++ concat (map (calls_of_event serial) evs).
Proof.
  revert st. induction evs as [|ev evs IH]; intros st; simpl.
  - by rewrite app_nil_r.
  - by rewrite IH, callback_calls, <- app_assoc.
Qed.

(** [set()] on an event that is set already changes nothing, and no
    callback clears the flag. *)
Lemma event_set_idempotent st : event_set (event_set st) = event_set st.
Proof. reflexivity. Qed.

Lemma callback_keeps_flag st ev :
  message_received_event st = true ->
  message_received_event (callback st ev) = true.
Proof.
  intros H. destruct ev as [rc|decoded|rc|]; simpl; try done.
  - unfold on_connect. by case_bool_decide.
  - unfold on_message.
    destruct (looks_like_status decoded) as [[payload []]|[]]; done.
Qed.

Lemma callbacks_keep_flag evs st :
  message_received_event st = true ->
  message_received_event (foldl callback st evs) = true.
Proof.
  revert st. induction evs as [|ev evs IH]; intros st H; simpl; [done|].
  by apply IH, callback_keeps_flag.
Qed.

(** *** The run, unfolded *)

Lemma run_connect_async_raises env e :
  connect_async_raises env = Some e ->
  run env initial_cells =
    (Raise e,
     {| status_data := None;
        message_received_event := false;
        connection_error := None;
        calls := [TlsSet; TlsInsecureSet true; UsernamePwSet "bblp" access_code;
                  ConnectAsync ip mqtt_port 60; LoopStop; Disconnect];
        loop_running := false;
        stdout := [] |}).
Proof.
  intros H.
  cbv beta iota zeta delta
    [get_bambu_printer_status try_finally bind connect_async loop_start
     event_wait loop_stop disconnect client_call modify raise ret run_loop].
  rewrite H. reflexivity.
Qed.

Lemma run_started env :
  connect_async_raises env = None ->
  run env initial_cells =
    match wait_raises env with
    | Some e => (Raise e, torn_down (at_loop_stop env))
    | None =>
        resolve (message_received_event (at_wait_return env))
                (torn_down (at_loop_stop env))
    end.
Proof.
  intros H.
  assert (loop_running (at_wait_return env) = true) as Hrun.
  { unfold cells_at_wait_return. by rewrite callbacks_loop_running. }
  unfold torn_down, cells_at_loop_stop.
  destruct (wait_raises env) as [e|] eqn:Hw;
    cbv beta iota zeta delta
      [get_bambu_printer_status try_finally bind connect_async loop_start
       event_wait loop_stop disconnect client_call modify raise ret run_loop];
    rewrite H, Hw; simpl;
    change (foldl callback _ (during_wait env)) with (at_wait_return env);
    rewrite Hrun; reflexivity.
Qed.

Lemma resolve_torn_down (triggered : bool) st :
  fst (resolve triggered (torn_down st)) = fst (resolve triggered st).
Proof.
  unfold resolve, torn_down. simpl.
  destruct (from_option Py.truthy_str false (connection_error st)); [done|].
  destruct (negb triggered); [done|].
  destruct (status_data st) as [data|]; [|done].
  by destruct (Py.truthy data).
Qed.

Lemma fetch_started env :
  connect_async_raises env = None ->
  wait_raises env = None ->
  fetch ip serial access_code timeout env =
    fst (resolve (message_received_event (at_wait_return env)) (at_loop_stop env)).
Proof.
  intros Hc Hw. unfold fetch. rewrite (run_started _ Hc), Hw.
  apply resolve_torn_down.
Qed.

Lemma fetch_cells_started env :
  connect_async_raises env = None ->
  fetch_cells ip serial access_code timeout env = torn_down (at_loop_stop env).
Proof.
  intros Hc. unfold fetch_cells. rewrite (run_started _ Hc).
  destruct (wait_raises env); [done|].
  unfold resolve.
  destruct (from_option _ _ _); [done|].
  destruct (negb _); [done|].
  destruct (status_data _) as [data|]; [|done].
  by destruct (Py.truthy data).
Qed.

Lemma at_loop_stop_delivered env :
  at_loop_stop env = foldl callback (cells_started ip access_code timeout) (delivered env).
Proof. unfold cells_at_loop_stop, cells_at_wait_return, delivered. by rewrite foldl_app. Qed.

(** *** The connection error cell *)

Lemma failure_records_error st ev :
  is_failure ev = true -> error_recorded (callback st ev) = true.
Proof.
  destruct ev as [rc|decoded|rc|]; simpl; try discriminate.
  - unfold on_connect. case_bool_decide; [discriminate|]. reflexivity.
  - reflexivity.
Qed.

Lemma callback_keeps_error st ev :
  error_recorded st = true -> error_recorded (callback st ev) = true.
Proof.
  intros H. destruct ev as [rc|decoded|rc|]; simpl; try done.
  - unfold on_connect. by case_bool_decide.
  - unfold on_message.
    destruct (looks_like_status decoded) as [[payload []]|[]]; done.
Qed.

Lemma callbacks_keep_error evs st :
  error_recorded st = true -> error_recorded (foldl callback st evs) = true.
Proof.
  revert st. induction evs as [|ev evs IH]; intros st H; simpl; [done|].
  by apply IH, callback_keeps_error.
Qed.

Lemma callbacks_record_error evs st :
  Exists (fun ev => is_failure ev = true) evs ->
  error_recorded (foldl callback st evs) = true.
Proof.
  intros H. revert st. induction H as [ev evs Hev|ev evs _ IH]; intros st; simpl.
  - by apply callbacks_keep_error, failure_records_error.
  - apply IH.
Qed.

Lemma callback_no_failure st ev :
  is_failure ev = false -> connection_error (callback st ev) = connection_error st.
Proof.
  destruct ev as [rc|decoded|rc|]; simpl; try done.
  - unfold on_connect. case_bool_decide; [done|discriminate].
  - intros _. unfold on_message.
    destruct (looks_like_status decoded) as [[payload []]|[]]; done.
Qed.

Lemma callbacks_no_failure evs st :
  Forall (fun ev => is_failure ev = false) evs ->
  connection_error (foldl callback st evs) = connection_error st.
Proof.
  intros H. revert st. induction H as [|ev evs Hev _ IH]; intros st; simpl; [done|].
  by rewrite IH, callback_no_failure.
Qed.

(** *** The captured report and the flag *)

Lemma qualifying_looks_like_status (decoded : result exception json) :
  qualifying (OnMessage decoded) = true <->
  exists payload, decoded = Ok payload /\ looks_like_status decoded = Ok (payload, true).
Proof.
  unfold looks_like_status. destruct decoded as [payload|e]; simpl.
  - destruct (Py.contains "print" payload) as [[]|]; simpl; split;
      try discriminate; try (intros (? & [= <-] & [=])); eauto.
  - split; [discriminate|]. by intros (? & [=] & _).
Qed.

Lemma not_qualifying_looks_like_status (decoded : result exception json) :
  qualifying (OnMessage decoded) = false ->
  forall payload, looks_like_status decoded <> Ok (payload, true).
Proof.
  intros H payload Hl.
  assert (qualifying (OnMessage decoded) = true) as Hq; [|congruence].
  apply qualifying_looks_like_status. exists payload. split; [|done].
  unfold looks_like_status in Hl. destruct decoded as [p|e]; [|done].
  simpl in Hl. destruct (Py.contains "print" p) as [found|]; [|done].
  simpl in Hl. congruence.
Qed.

Lemma callback_qualifying st (payload : json) :
  qualifying (msg payload) = true ->
  status_data (callback st (msg payload)) = Some payload /\
  message_received_event (callback st (msg payload)) = true.
Proof.
  intros H. apply qualifying_looks_like_status in H as (p & [= <-] & Hl).
  simpl. unfold on_message. rewrite Hl. done.
Qed.

Lemma callback_not_qualifying st ev :
  qualifying ev = false -> status_data (callback st ev) = status_data st.
Proof.
  intros H. destruct ev as [rc|decoded|rc|]; simpl; try done.
  - unfold on_connect. by case_bool_decide.
  - pose proof (not_qualifying_looks_like_status _ H) as Hn.
    unfold on_message.
    destruct (looks_like_status decoded) as [[payload []]|[]]; try done.
    by destruct (Hn payload).
Qed.

Lemma callbacks_not_qualifying evs st :
  Forall (fun ev => qualifying ev = false) evs ->
  status_data (foldl callback st evs) = status_data st.
Proof.
  intros H. revert st. induction H as [|ev evs Hev _ IH]; intros st; simpl; [done|].
  by rewrite IH, callback_not_qualifying.
Qed.

Lemma callback_quiet st ev :
  is_failure ev = false -> qualifying ev = false ->
  message_received_event (callback st ev) = message_received_event st.
Proof.
  intros Hf Hq. destruct ev as [rc|decoded|rc|]; simpl; try done.
  - unfold on_connect. simpl in Hf. case_bool_decide; [done|discriminate].
  - pose proof (not_qualifying_looks_like_status _ Hq) as Hn.
    unfold on_message.
    destruct (looks_like_status decoded) as [[payload []]|[]]; try done.
    by destruct (Hn payload).
Qed.

Lemma callbacks_quiet evs st :
  Forall (fun ev => is_failure ev = false /\ qualifying ev = false) evs ->
  message_received_event (foldl callback st evs) = message_received_event st.
Proof.
  intros H. revert st. induction H as [|ev evs [Hf Hq] _ IH]; intros st; simpl; [done|].
  by rewrite IH, callback_quiet.
Qed.

Lemma callbacks_release evs st :
  Exists (fun ev => qualifying ev = true) evs ->
  message_received_event (foldl callback st evs) = true.
Proof.
  intros H. revert st. induction H as [ev evs Hev|ev evs _ IH]; intros st; simpl.
  - apply callbacks_keep_flag.
    destruct ev as [rc|[payload|e]|rc|]; try discriminate.
    by apply (callback_qualifying st payload).
  - apply IH.
Qed.

Lemma callback_keeps_captured st ev :
  is_Some (status_data st) -> is_Some (status_data (callback st ev)).
Proof.
  intros H. destruct ev as [rc|decoded|rc|]; simpl; try done.
  - unfold on_connect. by case_bool_decide.
  - unfold on_message.
    destruct (looks_like_status decoded) as [[payload []]|[]]; simpl; eauto.
Qed.

Lemma callbacks_keep_captured evs st :
  is_Some (status_data st) -> is_Some (status_data (foldl callback st evs)).
Proof.
  revert st. induction evs as [|ev evs IH]; intros st H; simpl; [done|].
  by apply IH, callback_keeps_captured.
Qed.

(** A payload that passes the test of line 49 is true in an [if]. *)
Lemma contains_print_truthy (payload : json) :
  Py.contains "print" payload = Ok true -> Py.truthy payload = true.
Proof.
  destruct payload as [| | |s|l|m]; simpl; try discriminate.
  - intros [= H]. destruct s; [discriminate|]. reflexivity.
  - intros [= H]. destruct l; [discriminate|]. reflexivity.
  - intros [= H]. apply bool_decide_eq_true in H.
    apply negb_true_iff, bool_decide_eq_false. intros ->.
    rewrite lookup_empty in H. by destruct H.
Qed.

(** *** The order of the calls *)

Lemma publish_follows_subscribe_nil : publish_follows_subscribe serial [].
Proof. intros before topic payload after H. by destruct before. Qed.

Lemma publish_follows_subscribe_snoc log c :
  is_publish c = false ->
  publish_follows_subscribe serial log ->
  publish_follows_subscribe serial (log ++ [c]).
Proof.
  intros Hc Hlog before topic payload after.
  destruct after as [|a after _] using rev_ind; intros H.
  - apply app_inj_tail in H as [_ ->]. discriminate.
  - change (before ++ Publish topic payload :: after ++ [a])
      with (before ++ (Publish topic payload :: after) ++ [a]) in H.
    rewrite app_assoc in H. apply app_inj_tail in H as [H _].
    by apply (Hlog _ _ _ _ H).
Qed.

Lemma publish_follows_subscribe_connect log :
  publish_follows_subscribe serial log ->
  publish_follows_subscribe serial
    (log ++ [Subscribe (subscribe_topic serial);
             Publish (publish_topic serial) status_payload]).
Proof.
  intros Hlog before topic payload after.
  change (log ++ [Subscribe (subscribe_topic serial);
                  Publish (publish_topic serial) status_payload])
    with (log ++ [Subscribe (subscribe_topic serial)] ++
                 [Publish (publish_topic serial) status_payload]).
  rewrite app_assoc.
  destruct after as [|a after _] using rev_ind; intros H.
  - apply app_inj_tail in H as [<- [= <- <-]]. split; [done|]. by exists log.
  - change (before ++ Publish topic payload :: after ++ [a])
      with (before ++ (Publish topic payload :: after) ++ [a]) in H.
    rewrite app_assoc in H. apply app_inj_tail in H as [H _].
    by apply (publish_follows_subscribe_snoc log (Subscribe (subscribe_topic serial))
                eq_refl Hlog _ _ _ _ H).
Qed.

Lemma publish_follows_subscribe_callbacks evs log :
  publish_follows_subscribe serial log ->
  publish_follows_subscribe serial (log ++ concat (map (calls_of_event serial) evs)).
Proof.
  revert log. induction evs as [|ev evs IH]; intros log Hlog; simpl.
  - by rewrite app_nil_r.
  - rewrite app_assoc. apply IH.
    destruct ev as [rc|decoded|rc|]; simpl; try by rewrite app_nil_r.
    case_bool_decide; [|by rewrite app_nil_r].
    by apply publish_follows_subscribe_connect.
Qed.

Lemma callbacks_never_tear_down evs (c : call) :
  c ∈ concat (map (calls_of_event serial) evs) -> c <> LoopStop /\ c <> Disconnect.
Proof.
  induction evs as [|ev evs IH]; simpl; intros H.
  - by apply elem_of_nil in H.
  - apply elem_of_app in H as [H|H]; [|by apply IH].
    destruct ev as [rc|decoded|rc|]; simpl in H; try by apply elem_of_nil in H.
    case_bool_decide; [|by apply elem_of_nil in H].
    apply elem_of_cons in H as [->|H]; [done|].
    apply elem_of_cons in H as [->|H]; [done|].
    by apply elem_of_nil in H.
Qed.

Lemma fetch_calls_started env :
  connect_async_raises env = None ->
  fetch_calls ip serial access_code timeout env =
    ([TlsSet; TlsInsecureSet true; UsernamePwSet "bblp" access_code;
      ConnectAsync ip mqtt_port 60; LoopStart; EventWait timeout] ++
     concat (map (calls_of_event serial) (delivered env))) ++
    [LoopStop; Disconnect].
Proof.
  intros Hc.
  change (fetch_calls ip serial access_code timeout env)
    with (calls (fetch_cells ip serial access_code timeout env)).
  rewrite (fetch_cells_started _ Hc), at_loop_stop_delivered.
  unfold torn_down. simpl. rewrite callbacks_calls. simpl.
  by rewrite <- !app_assoc.
Qed.

Lemma fetch_calls_not_started env e :
  connect_async_raises env = Some e ->
  fetch_calls ip serial access_code timeout env =
    [TlsSet; TlsInsecureSet true; UsernamePwSet "bblp" access_code;
     ConnectAsync ip mqtt_port 60] ++ [LoopStop; Disconnect].
Proof.
  intros Hc. unfold fetch_calls. by rewrite (run_connect_async_raises _ _ Hc).
Qed.

Lemma fetch_cells_not_started env e :
  connect_async_raises env = Some e ->
  loop_running (fetch_cells ip serial access_code timeout env) = false.
Proof.
  intros Hc. unfold fetch_cells. by rewrite (run_connect_async_raises _ _ Hc).
Qed.

(** *** Messages that are not reports *)

(** A message that does not decode, that decodes to a mapping without a
    "print" key, or that decodes to a number, a boolean or null, changes
    no cell and makes no call: it only prints in the two [except]
    clauses. *)
Lemma on_message_ignores (decoded : result exception json) st :
  (match decoded with
   | Raise _ => True
   | Ok (JObj m) => m !! "print" = None
   | Ok (JNull | JBool _ | JInt _) => True
   | Ok (JStr _ | JArr _) => False
   end) ->
  let st' := on_message decoded st in
  status_data st' = status_data st /\
  message_received_event st' = message_received_event st /\
  connection_error st' = connection_error st /\
  calls st' = calls st.
Proof.
  intros H. unfold on_message, looks_like_status.
  destruct decoded as [[| | | | |m]|e]; simpl in *; try done.
  - rewrite H. simpl. done.
  - by destruct e.
Qed.

(** *** The claims about a run *)

Local Abbreviation fetch := (fetch ip serial access_code timeout).
Local Abbreviation fetch_calls := (fetch_calls ip serial access_code timeout).
Local Abbreviation fetch_cells := (fetch_cells ip serial access_code timeout).

(** C1: on every run - a report classified, a connection failure, a
    timeout, an exception out of the wait or out of connect_async - the
    log of calls ends with one loop_stop followed by one disconnect, none
    of the two occurs earlier in the log, and the loop thread is stopped
    when the function returns or raises. *)
Theorem teardown_exactly_once env :
  exists earlier,
    fetch_calls env = earlier ++ [LoopStop; Disconnect] /\
    (LoopStop ∉ earlier) /\
    (Disconnect ∉ earlier) /\
    loop_running (fetch_cells env) = false.
Proof.
  destruct (connect_async_raises env) as [e|] eqn:Hc.
  - eexists. split; [by apply fetch_calls_not_started with e|].
    split; [|split].
    + intros H. repeat (apply elem_of_cons in H as [H|H]; [discriminate H|]).
      by apply elem_of_nil in H.
    + intros H. repeat (apply elem_of_cons in H as [H|H]; [discriminate H|]).
      by apply elem_of_nil in H.
    + by rewrite (fetch_cells_not_started _ _ Hc).
  - eexists. split; [by apply fetch_calls_started|].
    assert (forall c, (c = LoopStop \/ c = Disconnect) ->
              c ∉ [TlsSet; TlsInsecureSet true; UsernamePwSet "bblp" access_code;
                   ConnectAsync ip mqtt_port 60; LoopStart; EventWait timeout] ++
                  concat (map (calls_of_event serial) (delivered env))) as Hno.
    { intros c Hc' H. apply elem_of_app in H as [H|H].
      - repeat (apply elem_of_cons in H as [H|H];
                [destruct Hc' as [-> | ->]; discriminate H|]).
        by apply elem_of_nil in H.
      - apply callbacks_never_tear_down in H as [H1 H2].
        destruct Hc'; contradiction. }
    split; [apply Hno; by left|]. split; [apply Hno; by right|].
    by rewrite (fetch_cells_started _ Hc).
Qed.

(** C2: in a run where connect_async and the wait return, if a callback
    reports a connection failure at any point, or if the wait times out
    (no callback run during the wait reports a failure or captures a
    report), the function returns "Unknown" and raises nothing; both
    causes give the same value. *)
Theorem unknown_on_failure_or_timeout env :
  connect_async_raises env = None ->
  wait_raises env = None ->
  Exists (fun ev => is_failure ev = true) (delivered env) \/
  Forall (fun ev => is_failure ev = false /\ qualifying ev = false) (during_wait env) ->
  fetch env = Ok "Unknown".
Proof.
  intros Hc Hw Hcause. rewrite (fetch_started _ Hc Hw).
  unfold resolve. destruct Hcause as [Hfail|Hquiet].
  - pose proof (callbacks_record_error _ (cells_started ip access_code timeout) Hfail) as He.
    rewrite <- at_loop_stop_delivered in He. unfold error_recorded in He.
    by rewrite He.
  - destruct (from_option Py.truthy_str false _); [done|].
    unfold cells_at_wait_return. by rewrite (callbacks_quiet _ _ Hquiet).
Qed.

(** C7, as amended: setting the event again is no error and leaves it
    set; of several qualifying messages delivered before the loop is
    stopped it is the last one that is classified, when the wait was
    released by a qualifying message and no callback reported a
    connection failure. *)
Theorem last_report_decides env earlier later (last : json) :
  connect_async_raises env = None ->
  wait_raises env = None ->
  Forall (fun ev => is_failure ev = false) (delivered env) ->
  Exists (fun ev => qualifying ev = true) (during_wait env) ->
  delivered env = earlier ++ msg last :: later ->
  qualifying (msg last) = true ->
  Forall (fun ev => qualifying ev = false) later ->
  fetch env = lift_exc (status_string last) /\
  (forall st, event_set (event_set st) = event_set st) /\
  (forall st ev, message_received_event st = true ->
                 message_received_event (callback st ev) = true).
Proof.
  intros Hc Hw Hok Hrel Hsplit Hlast Hlater.
  split; [|split; [apply event_set_idempotent|apply callback_keeps_flag]].
  rewrite (fetch_started _ Hc Hw). unfold resolve.
  rewrite at_loop_stop_delivered, (callbacks_no_failure _ _ Hok). simpl.
  unfold cells_at_wait_return. rewrite (callbacks_release _ _ Hrel). simpl.
  rewrite Hsplit, foldl_app. cbn [foldl].
  rewrite (callbacks_not_qualifying _ _ Hlater).
  destruct (callback_qualifying
              (foldl callback (cells_started ip access_code timeout) earlier)
              last Hlast) as [-> _].
  rewrite contains_print_truthy; [done|].
  simpl in Hlast. by destruct (Py.contains "print" last) as [[]|].
Qed.

(** C8: in a run where the loop thread delivers a successful connect,
    the log holds a subscribe to device/{serial}/report followed at once
    by the publish of the request to device/{serial}/request; and any
    publish in the log is that request, right after that subscribe. *)
Theorem subscribe_before_publish env :
  connect_async_raises env = None ->
  OnConnect 0 ∈ delivered env ->
  (exists before after,
     fetch_calls env =
       before ++ [Subscribe ("device/" +:+ serial +:+ "/report");
                  Publish ("device/" +:+ serial +:+ "/request") status_payload] ++ after) /\
  publish_follows_subscribe serial (fetch_calls env).
Proof.
  intros Hc Hin. rewrite (fetch_calls_started _ Hc). split.
  - apply list_elem_of_split in Hin as (l1 & l2 & ->).
    rewrite map_app, concat_app. cbn [map concat calls_of_event].
    rewrite bool_decide_eq_true_2 by done.
    exists ([TlsSet; TlsInsecureSet true; UsernamePwSet "bblp" access_code;
             ConnectAsync ip mqtt_port 60; LoopStart; EventWait timeout] ++
            concat (map (calls_of_event serial) l1)),
           (concat (map (calls_of_event serial) l2) ++ [LoopStop; Disconnect]).
    rewrite <- !app_assoc. reflexivity.
  - change [LoopStop; Disconnect] with ([LoopStop] ++ [Disconnect]).
    rewrite app_assoc.
    do 2 (apply publish_follows_subscribe_snoc; [done|]).
    apply publish_follows_subscribe_callbacks.
    change [TlsSet; TlsInsecureSet true; UsernamePwSet "bblp" access_code;
            ConnectAsync ip mqtt_port 60; LoopStart; EventWait timeout]
      with ((((((([] ++ [TlsSet]) ++ [TlsInsecureSet true]) ++
                  [UsernamePwSet "bblp" access_code]) ++
                 [ConnectAsync ip mqtt_port 60]) ++ [LoopStart]) ++
              [EventWait timeout])).
    do 6 (apply publish_follows_subscribe_snoc; [done|]).
    apply publish_follows_subscribe_nil.
Qed.

(** C10: in a run where connect_async and the wait return, if a callback
    reports a connection failure at any point, the function returns
    "Unknown" even though a qualifying report was delivered and is still
    held in the captured-report cell at the end. The resolution tests the
    error cell first: with the error recorded it gives "Unknown" for any
    captured report and any outcome of the wait. *)
Theorem connection_error_overrides_report env (captured : json) :
  connect_async_raises env = None ->
  wait_raises env = None ->
  Exists (fun ev => is_failure ev = true) (delivered env) ->
  msg captured ∈ delivered env ->
  qualifying (msg captured) = true ->
  is_Some (status_data (fetch_cells env)) /\
  error_recorded (fetch_cells env) = true /\
  fetch env = Ok "Unknown" /\
  (forall triggered st,
     error_recorded st = true -> fst (resolve triggered st) = Ok "Unknown").
Proof.
  intros Hc Hw Hfail Hin Hq.
  assert (forall triggered st,
            error_recorded st = true -> fst (resolve triggered st) = Ok "Unknown") as Hres.
  { intros triggered st He. unfold resolve. unfold error_recorded in He. by rewrite He. }
  assert (error_recorded (at_loop_stop env) = true) as He.
  { rewrite at_loop_stop_delivered. by apply callbacks_record_error. }
  rewrite (fetch_cells_started _ Hc), (fetch_started _ Hc Hw).
  split; [|split; [exact He|split; [by apply Hres|exact Hres]]].
  change (status_data (torn_down (at_loop_stop env)))
    with (status_data (at_loop_stop env)).
  rewrite at_loop_stop_delivered.
  apply list_elem_of_split in Hin as (l1 & l2 & ->).
  rewrite foldl_app. cbn [foldl]. apply callbacks_keep_captured.
  destruct (callback_qualifying
              (foldl callback (cells_started ip access_code timeout) l1)
              captured Hq) as [-> _].
  by eexists.
Qed.

End SessionFacts.

(** ** Concrete runs *)

Example classify_running_125 : status_string running_125 = Ok "2h 5m".
Proof. vm_compute. reflexivity. Qed.

Example classify_running_45 :
  status_string (report_of (JStr "RUNNING") (JInt 45)) = Ok "45 minutes".
Proof. vm_compute. reflexivity. Qed.

Example classify_running_minus_1 :
  status_string (report_of (JStr "RUNNING") (JInt (-1))) = Ok "Unknown".
Proof. vm_compute. reflexivity. Qed.

Example classify_remaining_time_not_a_number :
  classify (report_of (JStr "RUNNING") (JStr "soon")) = Raise TypeError.
Proof. vm_compute. reflexivity. Qed.

Example fetch_report : sample_fetch (run_of [OnConnect 0; msg running_125] []) = Ok "2h 5m".
Proof. vm_compute. reflexivity. Qed.

Example fetch_late_report_after_timeout :
  sample_fetch (run_of [OnConnect 0] [msg running_125]) = Ok "Unknown".
Proof. vm_compute. reflexivity. Qed.


(** C4, the sentence as worded fails: 59.5 is strictly positive, and for it
    line 110 gives minutes 59.5 (and line 109 hours 0.0), which is not in
    0..59. *)
Lemma remaining_range_counterexample : ~ remaining_range_as_worded.
Proof.
  intros H.
  destruct (H PyNum.fifty_nine_and_a_half
              (PyNum.floordiv PyNum.fifty_nine_and_a_half 60)
              (PyNum.mod_ PyNum.fifty_nine_and_a_half 60) eq_refl)
    as (_ & _ & Hle).
  vm_compute in Hle. discriminate Hle.
Qed.

Example hours_minutes_of_59_5 :
  PyNum.hours_minutes PyNum.fifty_nine_and_a_half =
    Some (PyNum.NFloat (S754_zero false), PyNum.fifty_nine_and_a_half).
Proof. vm_compute. reflexivity. Qed.

Example hours_minutes_of_125_5 :
  PyNum.hours_minutes (PyNum.NFloat (PyNum.float_of 251 (-1))) =
    Some (PyNum.NFloat (PyNum.float_of 2 0), PyNum.NFloat (PyNum.float_of 11 (-1))).
Proof. vm_compute. reflexivity. Qed.

Example hours_minutes_of_infinity :
  PyNum.hours_minutes (PyNum.NFloat (S754_infinity false)) =
    Some (PyNum.NFloat S754_nan, PyNum.NFloat S754_nan).
Proof. vm_compute. reflexivity. Qed.

Lemma remaining_hours_minutes_witness :
  classify running_125 = Ok (Remaining (125 `div` 60) (125 `mod` 60)) /\
  status_string running_125 =
    Ok (if bool_decide (0 < 125 `div` 60)
        then Py.str_of_int (125 `div` 60) +:+ "h " +:+ Py.str_of_int (125 `mod` 60) +:+ "m"
        else Py.str_of_int (125 `mod` 60) +:+ " minutes") /\
  0 <= 125 `div` 60 /\
  0 <= 125 `mod` 60 <= 59 /\
  (125 = 125 ->
   125 `div` 60 = 2 /\ 125 `mod` 60 = 5 /\ status_string running_125 = Ok "2h 5m") /\
  (125 = 45 ->
   125 `div` 60 = 0 /\ 125 `mod` 60 = 45 /\ status_string running_125 = Ok "45 minutes").
Proof.
  apply (remaining_hours_minutes running_125
           {[ "gcode_state" := JStr "RUNNING"; "mc_remaining_time" := JInt 125 ]}
           (JInt 125) 125).
  - reflexivity.
  - reflexivity.
  - reflexivity.
  - reflexivity.
  - lia.
Defined.

(** C5, the sentence as worded fails: a report whose gcode_state is PAUSE
    and whose mc_remaining_time is null matches none of the Done or
    Remaining branches, and its classification raises TypeError on the
    comparison with 0. *)
Lemma unknown_fallback_counterexample : ~ unknown_fallback_as_worded.
Proof.
  intros H.
  specialize (H paused_null
                {[ "gcode_state" := JStr "PAUSE"; "mc_remaining_time" := JNull ]}
                eq_refl).
  assert (classify paused_null = Ok Unknown) as Hc.
  { apply H. left. intros s Hs. vm_compute in Hs. injection Hs as <-.
    intros Hin. unfold known_states, done_states in Hin. simpl in Hin.
    repeat (apply elem_of_cons in Hin as [Hin|Hin]; [discriminate Hin|]).
    by apply elem_of_nil in Hin. }
  vm_compute in Hc. discriminate Hc.
Qed.

Lemma unknown_fallback_witness :
  classify (report_of (JStr "PAUSE") (JInt (-1))) = Ok Unknown /\
  status_string (report_of (JStr "PAUSE") (JInt (-1))) = Ok "Unknown".
Proof.
  apply (unknown_fallback _
           {[ "gcode_state" := JStr "PAUSE"; "mc_remaining_time" := JInt (-1) ]}).
  - reflexivity.
  - left. split.
    + intros s Hs. vm_compute in Hs. injection Hs as <-.
      intros Hin. unfold known_states, done_states in Hin. simpl in Hin.
      repeat (apply elem_of_cons in Hin as [Hin|Hin]; [discriminate Hin|]).
      by apply elem_of_nil in Hin.
    + vm_compute. by eexists.
Defined.

(** C6, the sentence as worded fails: a document whose "print" entry is the
    number 5 has a top-level "print" entry, and its classification raises
    AttributeError on the first [get] of a field. *)
Lemma classify_total_counterexample : ~ classify_total_as_worded.
Proof.
  intros H.
  destruct (H {[ "print" := JInt 5 ]}) as [c Hc].
  - exists (JInt 5). reflexivity.
  - vm_compute in Hc. discriminate Hc.
Qed.

Lemma classify_total_on_typed_reports_witness :
  exists c,
    classify (report_of (JInt 7) (JBool true)) = Ok c /\
    status_string (report_of (JInt 7) (JBool true)) = Ok (render c) /\
    (c = Done \/ c = Unknown \/
     exists hours minutes,
       c = Remaining hours minutes /\ 0 < hours * 60 + minutes /\ 0 <= minutes <= 59) /\
    ((forall s, ({[ "gcode_state" := JInt 7; "mc_remaining_time" := JBool true ]}
                   : gmap string json) !! "gcode_state" = Some (JStr s) ->
                s ∉ known_states) ->
     c = Unknown).
Proof.
  apply (classify_total_on_typed_reports (report_of (JInt 7) (JBool true))
           {[ "gcode_state" := JInt 7; "mc_remaining_time" := JBool true ]}).
  - reflexivity.
  - right. vm_compute. by eexists.
Defined.

(** C7, the sentence as worded fails: after a connect and a first report
    (RUNNING, 125 minutes) the function returns "2h 5m"; when a second
    report (FINISH) is delivered before the loop is stopped, it returns
    "Done". *)
Lemma first_report_decides_counterexample : ~ first_report_decides_as_worded.
Proof.
  intros H.
  specialize (H "10.0.0.2" "01S00A000000000" "12345678" 10
                [OnConnect 0] running_125 finished).
  assert (Forall (fun ev => qualifying ev = false) [OnConnect 0]) as H0.
  { by repeat constructor. }
  specialize (H H0 eq_refl eq_refl).
  vm_compute in H. discriminate H.
Qed.

Lemma last_report_decides_witness :
  sample_fetch (run_of [OnConnect 0; msg running_125; msg finished] []) =
    lift_exc (status_string finished) /\
  (forall st, event_set (event_set st) = event_set st) /\
  (forall st ev, message_received_event st = true ->
                 message_received_event (callback "01S00A000000000" st ev) = true).
Proof.
  apply (last_report_decides "10.0.0.2" "01S00A000000000" "12345678" 10
           (run_of [OnConnect 0; msg running_125; msg finished] [])
           [OnConnect 0; msg running_125] [] finished).
  - reflexivity.
  - reflexivity.
  - by repeat constructor.
  - apply Exists_cons_tl, Exists_cons_hd. reflexivity.
  - reflexivity.
  - reflexivity.
  - constructor.
Defined.

Lemma unknown_on_failure_or_timeout_witness :
  sample_fetch (run_of [OnConnect 5] []) = Ok "Unknown".
Proof.
  apply unknown_on_failure_or_timeout.
  - reflexivity.
  - reflexivity.
  - left. apply Exists_cons_hd. reflexivity.
Defined.

Lemma subscribe_before_publish_witness :
  (exists before after,
     sample_calls (run_of [OnConnect 0] []) =
       before ++ [Subscribe ("device/" +:+ "01S00A000000000" +:+ "/report");
                  Publish ("device/" +:+ "01S00A000000000" +:+ "/request") status_payload]
              ++ after) /\
  publish_follows_subscribe "01S00A000000000" (sample_calls (run_of [OnConnect 0] [])).
Proof.
  apply subscribe_before_publish.
  - reflexivity.
  - apply elem_of_cons. by left.
Defined.

Lemma connection_error_overrides_report_witness :
  let env := run_of [OnConnect 0; msg running_125] [OnConnectFail] in
  is_Some (status_data (fetch_cells "10.0.0.2" "01S00A000000000" "12345678" 10 env)) /\
  error_recorded (fetch_cells "10.0.0.2" "01S00A000000000" "12345678" 10 env) = true /\
  sample_fetch env = Ok "Unknown" /\
  (forall triggered st,
     error_recorded st = true ->
     fst (resolve triggered st) = Ok "Unknown").
Proof.
  apply (connection_error_overrides_report "10.0.0.2" "01S00A000000000" "12345678" 10
           (run_of [OnConnect 0; msg running_125] [OnConnectFail]) running_125).
  - reflexivity.
  - reflexivity.
  - apply Exists_cons_tl, Exists_cons_tl, Exists_cons_hd. reflexivity.
  - apply elem_of_cons. right. apply elem_of_cons. by left.
  - reflexivity.
Defined.

(** C9, where the code departs from the sentence: a message whose payload
    decodes to the array ["print"] has no print section, yet [on_message]
    captures it and sets the event, and the run then raises AttributeError
    out of the function instead of waiting on. *)
Theorem stray_array_is_captured :
  print_fields stray_array = None /\
  status_data (on_message (Ok stray_array) initial_cells) = Some stray_array /\
  message_received_event (on_message (Ok stray_array) initial_cells) = true /\
  sample_fetch (run_of [OnConnect 0; msg stray_array] []) = Raise (Exc AttributeError) /\
  sample_fetch (run_of [OnConnect 0; msg (JStr "blueprint")] []) = Raise (Exc AttributeError).
Proof. vm_compute. repeat split; reflexivity. Qed.


(** ** More on the classification *)

Section ClassifierFacts.

Implicit Types (payload : json) (fields : gmap string json).

Lemma classify_not_read payload :
  fields_read payload = None -> classify payload = Raise AttributeError.
Proof.
  destruct payload as [| | | | |m]; simpl; try done.
  unfold classify. simpl.
  destruct (m !! "print") as [[| | | | |fs]|]; simpl; done.
Qed.

Lemma classify_fields_read payload fields :
  fields_read payload = Some fields ->
  classify payload =
    let remaining_time := default (JInt (-1)) (fields !! "mc_remaining_time") in
    let gcode_state := default (JStr "") (fields !! "gcode_state") in
    if Py.in_strs gcode_state done_states
       || (Py.eq_str gcode_state "RUNNING" && Py.eq_int remaining_time 0)
    then Ok Done
    else
      positive <-? Py.gt_int remaining_time 0 ;;
      if positive && Py.eq_str gcode_state "RUNNING"
      then
        hours <-? Py.floordiv remaining_time 60 ;;
        minutes <-? Py.mod_ remaining_time 60 ;;
        Ok (Remaining hours minutes)
      else Ok Unknown.
Proof.
  destruct payload as [| | | | |m]; simpl; try discriminate.
  destruct (m !! "print") as [[| | | | |fs]|] eqn:Hp; simpl; try discriminate.
  - intros [= ->]. unfold classify. simpl. rewrite Hp. reflexivity.
  - intros [= <-]. unfold classify. simpl. rewrite Hp. reflexivity.
Qed.

(** What the classification returns when it returns. *)
Lemma classify_returns payload c :
  classify payload = Ok c ->
  c = Done \/ c = Unknown \/
  exists n, 0 < n /\ c = Remaining (n `div` 60) (n `mod` 60).
Proof.
  destruct (fields_read payload) as [fields|] eqn:Hf.
  2: { rewrite (classify_not_read _ Hf). discriminate. }
  rewrite (classify_fields_read _ _ Hf). cbv zeta.
  set (g := default (JStr "") (fields !! "gcode_state")).
  set (rt := default (JInt (-1)) (fields !! "mc_remaining_time")).
  destruct (Py.in_strs g done_states || Py.eq_str g "RUNNING" && Py.eq_int rt 0).
  { intros [= <-]. by left. }
  unfold Py.gt_int, Py.floordiv, Py.mod_.
  destruct (Py.as_int rt) as [n|]; [|discriminate].
  cbv beta iota delta [rbind].
  destruct (bool_decide (0 < n)) eqn:Hpos; simpl.
  - destruct (Py.eq_str g "RUNNING").
    + intros [= <-]. right. right. exists n.
      apply bool_decide_eq_true in Hpos. done.
    + intros [= <-]. right. by left.
  - intros [= <-]. right. by left.
Qed.

Lemma render_shape (c : ClassifiedStatus) :
  (c = Done \/ c = Unknown \/
   exists n, 0 < n /\ c = Remaining (n `div` 60) (n `mod` 60)) ->
  status_shape (render c).
Proof.
  intros [->|[->|(n & Hn & ->)]].
  - by left.
  - right. by left.
  - pose proof (Z.mod_pos_bound n 60) as Hm.
    pose proof (Z.div_mod n 60) as Hd.
    assert (0 <= n `div` 60) by (apply Z.div_pos; lia).
    simpl. case_bool_decide.
    + right. right. right. exists (n `div` 60), (n `mod` 60).
      split; [lia|]. split; [lia|]. reflexivity.
    + right. right. left. exists (n `mod` 60). split; [lia|]. reflexivity.
Qed.

Lemma status_string_shape payload s :
  status_string payload = Ok s -> status_shape s.
Proof.
  unfold status_string, rmap, rbind.
  destruct (classify payload) as [c|e] eqn:Hc; [|discriminate].
  intros [= <-]. by apply render_shape, classify_returns with payload.
Qed.

(** X2: the classification raises in two cases only: AttributeError when
    the payload, or its "print" entry, is not a mapping; TypeError when
    gcode_state is none of FINISH, FAILED and IDLE and mc_remaining_time is
    present and not a number. *)
Theorem classify_raises_iff payload (e : exception) :
  classify payload = Raise e <->
  (e = AttributeError /\ fields_read payload = None) \/
  (e = TypeError /\
   exists fields v,
     fields_read payload = Some fields /\
     Py.in_strs (default (JStr "") (fields !! "gcode_state")) done_states = false /\
     fields !! "mc_remaining_time" = Some v /\
     Py.as_int v = None).
Proof.
  destruct (fields_read payload) as [fields|] eqn:Hf.
  2: { rewrite (classify_not_read _ Hf). split.
       - intros [= <-]. by left.
       - intros [[-> _]|(_ & ? & ? & [=] & _)]. done. }
  rewrite (classify_fields_read _ _ Hf). cbv zeta.
  set (g := default (JStr "") (fields !! "gcode_state")).
  destruct (fields !! "mc_remaining_time") as [v|] eqn:Hv; simpl default.
  - unfold Py.eq_int, Py.gt_int, Py.floordiv, Py.mod_.
    destruct (Py.as_int v) as [n|] eqn:Hn.
    + cbv beta iota delta [rbind]. split.
      * intros H. exfalso.
        destruct (Py.in_strs g done_states || Py.eq_str g "RUNNING" && bool_decide (n = 0));
          [discriminate|].
        destruct (bool_decide (0 < n) && Py.eq_str g "RUNNING"); discriminate.
      * intros [[_ [=]]|(_ & fs & w & [= <-] & _ & Hw & Hnone)].
        rewrite Hv in Hw. injection Hw as <-. congruence.
    + rewrite andb_false_r, orb_false_r.
      destruct (Py.in_strs g done_states) eqn:Hd; cbn [orb].
      * split; [discriminate|].
        intros [[_ [=]]|(_ & fs & w & [= <-] & Hd' & _)].
        unfold g in Hd. congruence.
      * split.
        -- intros [= <-]. right. split; [done|]. by exists fields, v.
        -- intros [[_ [=]]|[-> _]]. done.
  - split.
    + intros H. exfalso.
      destruct (Py.in_strs g done_states || Py.eq_str g "RUNNING" && Py.eq_int (JInt (-1)) 0);
        [discriminate|].
      simpl in H. discriminate.
    + intros [[_ [=]]|(_ & fs & w & [= <-] & _ & Hw & _)].
      by rewrite Hv in Hw.
Qed.

End ClassifierFacts.

(** ** More on a run *)

Section RunFacts.

Context (ip serial access_code : string) (timeout : Z).

Implicit Types (st : cells) (ev : event) (evs : list event) (env : environment).

Local Abbreviation callback := (callback serial).
Local Abbreviation run := (get_bambu_printer_status ip serial access_code timeout).
Local Abbreviation started := (cells_started ip access_code timeout).
Local Abbreviation at_wait_return := (cells_at_wait_return ip serial access_code timeout).
Local Abbreviation at_loop_stop := (cells_at_loop_stop ip serial access_code timeout).

Lemma fetch_not_started env e :
  connect_async_raises env = Some e ->
  fetch ip serial access_code timeout env = Raise e.
Proof. intros Hc. unfold fetch. by rewrite (run_connect_async_raises _ _ _ _ _ _ Hc). Qed.

Lemma fetch_wait_raises env e :
  connect_async_raises env = None ->
  wait_raises env = Some e ->
  fetch ip serial access_code timeout env = Raise e.
Proof. intros Hc Hw. unfold fetch. by rewrite (run_started _ _ _ _ _ Hc), Hw. Qed.

Lemma fetch_cells_not_started_stdout env e :
  connect_async_raises env = Some e ->
  stdout (fetch_cells ip serial access_code timeout env) = [].
Proof.
  intros Hc. unfold fetch_cells. by rewrite (run_connect_async_raises _ _ _ _ _ _ Hc).
Qed.

Lemma run_without_disconnects_raises env e :
  connect_async_raises env = Some e ->
  run (without_disconnects env) initial_cells = run env initial_cells.
Proof.
  intros Hc.
  rewrite (run_connect_async_raises _ _ _ _ _ _ Hc).
  by rewrite (run_connect_async_raises _ _ _ _ (without_disconnects env) e Hc).
Qed.

Lemma callbacks_without_disconnects evs st :
  foldl callback st (List.filter (fun ev => negb (is_disconnect ev)) evs) =
  foldl callback st evs.
Proof.
  revert st. induction evs as [|ev evs IH]; intros st; simpl; [done|].
  destruct ev as [rc|decoded|rc|]; simpl; by rewrite IH.
Qed.

Lemma run_without_disconnects env :
  run (without_disconnects env) initial_cells = run env initial_cells.
Proof.
  destruct (connect_async_raises env) as [e|] eqn:Hc.
  { by apply run_without_disconnects_raises with e. }
  rewrite (run_started _ _ _ _ _ Hc).
  rewrite (run_started _ _ _ _ (without_disconnects env) Hc).
  unfold cells_at_loop_stop, cells_at_wait_return. simpl.
  by rewrite !callbacks_without_disconnects.
Qed.

Lemma callback_stdout st ev :
  stdout (callback st ev) = stdout st ++ line_of_event ev.
Proof.
  destruct ev as [rc|decoded|rc|]; simpl; try by rewrite app_nil_r.
  - unfold on_connect. case_bool_decide; simpl; by rewrite app_nil_r.
  - unfold on_message.
    destruct (looks_like_status decoded) as [[payload []]|[]];
      simpl; by rewrite ?app_nil_r.
Qed.

Lemma callbacks_stdout evs st :
  stdout (foldl callback st evs) = stdout st ++ concat (map line_of_event evs).
Proof.
  revert st. induction evs as [|ev evs IH]; intros st; simpl.
  - by rewrite app_nil_r.
  - by rewrite IH, callback_stdout, <- app_assoc.
Qed.

Lemma count_if_app {A} (p : A -> bool) (l1 l2 : list A) :
  count_if p (l1 ++ l2) = (count_if p l1 + count_if p l2)%nat.
Proof. unfold count_if. by rewrite List.filter_app, length_app. Qed.

Lemma count_calls_of_events (p : call -> bool) evs :
  p (Subscribe (subscribe_topic serial)) || p (Publish (publish_topic serial) status_payload) = true ->
  p (Subscribe (subscribe_topic serial)) && p (Publish (publish_topic serial) status_payload) = false ->
  count_if p (concat (map (calls_of_event serial) evs)) = count_if is_connected evs.
Proof.
  intros Hor Hand. induction evs as [|ev evs IH]; simpl; [done|].
  rewrite count_if_app, IH.
  change (count_if is_connected (ev :: evs))
    with (count_if is_connected ([ev] ++ evs)).
  rewrite count_if_app. f_equal.
  destruct ev as [rc|decoded|rc|]; try reflexivity.
  unfold calls_of_event, is_connected, count_if. cbn [List.filter].
  destruct (bool_decide (rc = 0)); [|reflexivity].
  cbn [List.filter].
  destruct (p (Subscribe (subscribe_topic serial))),
           (p (Publish (publish_topic serial) status_payload));
    simpl in *; done.
Qed.

Lemma callbacks_flag_inv evs st :
  message_received_event (foldl callback st evs) = true ->
  message_received_event st = true \/
  Exists (fun ev => is_failure ev = true \/ qualifying ev = true) evs.
Proof.
  revert st. induction evs as [|ev evs IH]; intros st H; cbn [foldl] in H; [by left|].
  apply IH in H as [H|H]; [|right; by apply Exists_cons_tl].
  destruct (is_failure ev) eqn:Hf; [right; apply Exists_cons_hd; by left|].
  destruct (qualifying ev) eqn:Hq; [right; apply Exists_cons_hd; by right|].
  left. by rewrite (callback_quiet _ _ _ Hf Hq) in H.
Qed.

Lemma callbacks_error_inv evs st :
  error_recorded (foldl callback st evs) = false ->
  Forall (fun ev => is_failure ev = false) evs.
Proof.
  revert st. induction evs as [|ev evs IH]; intros st H; cbn [foldl] in H; [constructor|].
  constructor; [|by apply IH with (callback st ev)].
  destruct (is_failure ev) eqn:Hf; [|done].
  rewrite callbacks_keep_error in H; [done|].
  by apply failure_records_error.
Qed.

Lemma callbacks_status_data_inv evs st (data : json) :
  status_data (foldl callback st evs) = Some data ->
  (status_data st = Some data /\ Forall (fun ev => qualifying ev = false) evs) \/
  exists earlier later,
    evs = earlier ++ msg data :: later /\
    qualifying (msg data) = true /\
    Forall (fun ev => qualifying ev = false) later.
Proof.
  revert st. induction evs as [|ev evs IH]; intros st H; cbn [foldl] in H.
  { left. split; [done|constructor]. }
  apply IH in H as [[H Hall]|(earlier & later & -> & Hq & Hall)].
  - destruct (qualifying ev) eqn:Hq.
    + destruct ev as [rc|[payload|e]|rc|]; try discriminate.
      destruct (callback_qualifying serial st payload Hq) as [Hsd _].
      unfold msg in Hsd. rewrite Hsd in H. injection H as ->.
      right. by exists [], evs.
    + left. rewrite (callback_not_qualifying _ _ _ Hq) in H.
      split; [done|by constructor].
  - right. by exists (ev :: earlier), later.
Qed.

(** *** Properties of a run *)

Local Abbreviation fetch := (fetch ip serial access_code timeout).
Local Abbreviation fetch_calls := (fetch_calls ip serial access_code timeout).
Local Abbreviation fetch_cells := (fetch_cells ip serial access_code timeout).

Lemma fetch_ok_inv env (s : string) :
  fetch env = Ok s ->
  s = "Unknown" \/ exists data : json, status_string data = Ok s.
Proof.
  destruct (connect_async_raises env) as [e|] eqn:Hc.
  { by rewrite (fetch_not_started _ _ Hc). }
  destruct (wait_raises env) as [e|] eqn:Hw.
  { by rewrite (fetch_wait_raises _ _ Hc Hw). }
  rewrite (fetch_started _ _ _ _ _ Hc Hw). unfold resolve.
  destruct (from_option Py.truthy_str false _); [intros [= <-]; by left|].
  destruct (negb _); [intros [= <-]; by left|].
  destruct (status_data _) as [data|]; [|intros [= <-]; by left].
  destruct (Py.truthy data); [|intros [= <-]; by left].
  simpl. destruct (status_string data) as [s'|e] eqn:Hs; [|discriminate].
  intros [= <-]. right. by exists data.
Qed.

(** X1: whatever the callbacks do, a string the function returns is
    "Done", "Unknown", "<m> minutes" with m in 1..59, or "<h>h <m>m" with h
    at least 1 and m in 0..59. *)
Theorem returned_string_shape env (s : string) :
  fetch env = Ok s -> status_shape s.
Proof.
  intros H. apply fetch_ok_inv in H as [->|[data Hs]].
  - right. by left.
  - by apply status_string_shape with data.
Qed.

(** X3: an exception raised by connect_async, or by the wait, leaves the
    function unchanged, after the teardown; when it is connect_async that
    raises, the loop is never started and no callback makes a call. *)
Theorem try_block_exception_propagates env (e : raised) :
  first_raise env = Some e ->
  fetch env = Raise e /\
  (is_Some (connect_async_raises env) ->
   fetch_calls env =
     [TlsSet; TlsInsecureSet true; UsernamePwSet "bblp" access_code;
      ConnectAsync ip mqtt_port 60; LoopStop; Disconnect]).
Proof.
  unfold first_raise. destruct (connect_async_raises env) as [e'|] eqn:Hc.
  - intros [= ->]. split; [by apply fetch_not_started|].
    intros _. by rewrite (fetch_calls_not_started _ _ _ _ _ _ Hc).
  - intros Hw. split; [by apply fetch_wait_raises|].
    by intros [? [=]].
Qed.

(** X4: when connect_async returns, the log holds as many subscribes, and
    as many publishes, as the loop thread delivered successful connects:
    the request is sent once per connect and never without one. *)
Theorem one_request_per_connect env :
  connect_async_raises env = None ->
  count_if is_subscribe (fetch_calls env) = count_if is_connected (delivered env) /\
  count_if is_publish (fetch_calls env) = count_if is_connected (delivered env).
Proof.
  intros Hc. rewrite (fetch_calls_started _ _ _ _ _ Hc).
  rewrite !count_if_app.
  rewrite !count_calls_of_events by done.
  set (n := count_if is_connected (delivered env)).
  unfold count_if. cbn [List.filter is_subscribe is_publish length].
  split; lia.
Qed.

(** X5: a result other than "Unknown" comes from a report: no callback
    reported a connection failure, a qualifying message was delivered
    before the wait returned, and the string is the classification of the
    last qualifying message delivered before the loop was stopped. *)
Theorem result_stems_from_report env (s : string) :
  fetch env = Ok s ->
  s <> "Unknown" ->
  Forall (fun ev => is_failure ev = false) (delivered env) /\
  Exists (fun ev => qualifying ev = true) (during_wait env) /\
  exists earlier report later,
    delivered env = earlier ++ msg report :: later /\
    qualifying (msg report) = true /\
    Forall (fun ev => qualifying ev = false) later /\
    status_string report = Ok s.
Proof.
  destruct (connect_async_raises env) as [e|] eqn:Hc.
  { by rewrite (fetch_not_started _ _ Hc). }
  destruct (wait_raises env) as [e|] eqn:Hw.
  { by rewrite (fetch_wait_raises _ _ Hc Hw). }
  rewrite (fetch_started _ _ _ _ _ Hc Hw). unfold resolve.
  destruct (from_option Py.truthy_str false _) eqn:He; [by intros [= <-]|].
  destruct (message_received_event _) eqn:Hfl; [|by intros [= <-]].
  destruct (status_data _) as [data|] eqn:Hsd; [|by intros [= <-]].
  destruct (Py.truthy data); [|by intros [= <-]].
  simpl. destruct (status_string data) as [s'|e] eqn:Hs; [|discriminate].
  intros [= <-] _.
  rewrite at_loop_stop_delivered in He, Hsd.
  assert (Forall (fun ev => is_failure ev = false) (delivered env)) as Hok.
  { by apply callbacks_error_inv with started. }
  split; [done|]. split.
  - apply callbacks_flag_inv in Hfl as [Hfl|Hfl]; [discriminate|].
    apply Exists_exists in Hfl as (ev & Hin & [Hf|Hq]).
    + exfalso. unfold delivered in Hok. apply Forall_app in Hok as [Hok _].
      rewrite Forall_forall in Hok. specialize (Hok ev Hin). congruence.
    + apply Exists_exists. by exists ev.
  - apply callbacks_status_data_inv in Hsd
      as [[Hsd _]|(earlier & later & Hsplit & Hq & Hall)]; [discriminate|].
    by exists earlier, data, later.
Qed.

(** X6: on_disconnect does nothing: a run with the disconnect callbacks
    taken out returns or raises the same and leaves the same cells, calls
    included. A connection lost during the wait is not reported; the wait
    goes on to its timeout. *)
Theorem disconnects_are_inert env :
  fetch (without_disconnects env) = fetch env /\
  fetch_cells (without_disconnects env) = fetch_cells env /\
  fetch_calls (without_disconnects env) = fetch_calls env.
Proof.
  pose proof (run_without_disconnects env) as H.
  split; [|split].
  - change (fst (run (without_disconnects env) initial_cells) = fst (run env initial_cells)).
    by rewrite H.
  - change (snd (run (without_disconnects env) initial_cells) = snd (run env initial_cells)).
    by rewrite H.
  - change (calls (snd (run (without_disconnects env) initial_cells)) =
            calls (snd (run env initial_cells))).
    by rewrite H.
Qed.

(** X7: the function prints one line for each delivered message that does
    not decode or on which the membership test raises ("Failed to decode
    JSON message" for a JSONDecodeError, "Error processing message"
    otherwise), in the order of delivery, and nothing else. *)
Theorem printed_lines env :
  stdout (fetch_cells env) =
    match connect_async_raises env with
    | Some _ => []
    | None => concat (map line_of_event (delivered env))
    end.
Proof.
  destruct (connect_async_raises env) as [e|] eqn:Hc.
  - by apply fetch_cells_not_started_stdout with e.
  - rewrite (fetch_cells_started _ _ _ _ _ Hc), at_loop_stop_delivered.
    unfold torn_down. simpl. by rewrite callbacks_stdout.
Qed.

End RunFacts.

(** ** The application *)

Section AppFacts.

Implicit Types (a : app) (s : setting) (c : click) (f : file) (v : json).

Lemma check_config_settings a :
  printer_ip (_check_config_and_update a) = printer_ip a /\
  printer_serial (_check_config_and_update a) = printer_serial a /\
  printer_access_code (_check_config_and_update a) = printer_access_code a /\
  state_file (_check_config_and_update a) = state_file a /\
  alerts (_check_config_and_update a) = alerts a.
Proof.
  unfold _check_config_and_update.
  destruct (settings_present a), (config_loaded a) eqn:E; simpl; done.
Qed.

Lemma check_config_present a :
  settings_present (_check_config_and_update a) = settings_present a.
Proof.
  destruct (check_config_settings a) as (H1 & H2 & H3 & _).
  unfold settings_present. by rewrite H1, H2, H3.
Qed.

Lemma check_config_loaded a :
  config_loaded (_check_config_and_update a) = settings_present a.
Proof.
  unfold _check_config_and_update.
  destruct (settings_present a), (config_loaded a) eqn:E; simpl; congruence.
Qed.

Lemma check_config_timer a :
  timer_running a = config_loaded a ->
  timer_running (_check_config_and_update a) =
  config_loaded (_check_config_and_update a).
Proof.
  unfold _check_config_and_update.
  destruct (settings_present a), (config_loaded a) eqn:E; simpl; congruence.
Qed.

Lemma check_config_fresh_title a :
  config_loaded a = false ->
  title (_check_config_and_update a) =
    if config_loaded (_check_config_and_update a)
    then "3D Bambu: Ready" else "3D ❓ Login needed".
Proof.
  intros H. unfold _check_config_and_update. rewrite H.
  destruct (settings_present a); simpl; done.
Qed.

Lemma py_or_clean v : clean (py_or v (JStr "")).
Proof. unfold py_or, clean. destruct (Py.truthy v) eqn:H; auto. Qed.

Lemma truthy_py_or v : Py.truthy (py_or v (JStr "")) = Py.truthy v.
Proof. unfold py_or. by destruct (Py.truthy v) eqn:E. Qed.

Lemma clean_py_or v : clean v -> py_or v (JStr "") = v.
Proof. unfold py_or. intros [-> | ->]; done. Qed.

Lemma read_settings_saved a :
  read_settings (Ok (state_to_save a)) =
  Ok (printer_ip a, printer_serial a, printer_access_code a).
Proof.
  unfold read_settings, state_to_save. simpl.
  rewrite lookup_insert_eq.
  rewrite lookup_insert_ne by done. rewrite lookup_insert_eq.
  rewrite !lookup_insert_ne by done. rewrite lookup_singleton_eq.
  reflexivity.
Qed.

Lemma assign_current s (t : string) a :
  current s (assign s t a) = JStr t /\
  (forall s', s' <> s -> current s' (assign s t a) = current s' a) /\
  config_loaded (assign s t a) = config_loaded a /\
  title (assign s t a) = title a /\
  timer_running (assign s t a) = timer_running a /\
  alerts (assign s t a) = alerts a /\
  state_file (assign s t a) = state_file a.
Proof.
  destruct s; simpl; repeat split; try done; by intros [].
Qed.

Lemma assign_clean s (t : string) a :
  t <> "" ->
  clean (printer_ip a) -> clean (printer_serial a) -> clean (printer_access_code a) ->
  clean (printer_ip (assign s t a)) /\
  clean (printer_serial (assign s t a)) /\
  clean (printer_access_code (assign s t a)).
Proof.
  intros Ht H1 H2 H3.
  assert (clean (JStr t)) as Hc.
  { left. simpl. by rewrite bool_decide_eq_false_2. }
  destruct s; simpl; done.
Qed.

Lemma save_settings_settings (o : save_outcome) a :
  printer_ip (save_settings o a) = printer_ip a /\
  printer_serial (save_settings o a) = printer_serial a /\
  printer_access_code (save_settings o a) = printer_access_code a /\
  config_loaded (save_settings o a) = config_loaded a /\
  title (save_settings o a) = title a /\
  timer_running (save_settings o a) = timer_running a.
Proof. destruct o; simpl; done. Qed.

(** The input a dialog yields, when it yields one. *)
Lemma applescript_input (p : subprocess_result) a :
  match fst (_run_applescript_input p a) with
  | Some t => exists err, p = Completed 0 t err
  | None => forall t err, p <> Completed 0 t err
  end /\
  printer_ip (snd (_run_applescript_input p a)) = printer_ip a /\
  printer_serial (snd (_run_applescript_input p a)) = printer_serial a /\
  printer_access_code (snd (_run_applescript_input p a)) = printer_access_code a /\
  config_loaded (snd (_run_applescript_input p a)) = config_loaded a /\
  title (snd (_run_applescript_input p a)) = title a /\
  timer_running (snd (_run_applescript_input p a)) = timer_running a /\
  state_file (snd (_run_applescript_input p a)) = state_file a.
Proof.
  destruct p as [rc out err| |]; simpl.
  - case_bool_decide; simpl.
    + subst rc. split; [by exists err|done].
    + destruct (Py.str_contains "__CANCEL__" err); simpl;
        (split; [intros t e [= ? ? ?]; by subst|done]).
  - split; [done|done].
  - split; [done|done].
Qed.

Lemma applescript_accepts (t err : string) a :
  _run_applescript_input (Completed 0 t err) a = (Some t, a).
Proof. reflexivity. Qed.

Lemma set_setting_accepted s c a (t err : string) :
  dialog c = Completed 0 t err ->
  t <> "" ->
  set_setting s c a =
    let processed :=
      _check_config_and_update
        (save_settings (saving c) (assign s t (set_timer false a))) in
    if config_loaded processed then set_timer true processed else processed.
Proof.
  intros Hd Ht. unfold set_setting. rewrite Hd, applescript_accepts.
  unfold Py.truthy_str. by rewrite bool_decide_eq_false_2.
Qed.

(** A handler whose dialog yields no input, or an empty one, touches the
    timer and the alerts only. *)
Lemma set_setting_rejected s c a :
  (forall t err, dialog c = Completed 0 t err -> t = "") ->
  printer_ip (set_setting s c a) = printer_ip a /\
  printer_serial (set_setting s c a) = printer_serial a /\
  printer_access_code (set_setting s c a) = printer_access_code a /\
  config_loaded (set_setting s c a) = config_loaded a /\
  title (set_setting s c a) = title a /\
  state_file (set_setting s c a) = state_file a /\
  timer_running (set_setting s c a) = config_loaded a.
Proof.
  intros Hrej. unfold set_setting.
  destruct (dialog c) as [rc out err| |] eqn:Hd; simpl.
  - case_bool_decide as Hrc; simpl.
    + subst rc. rewrite (Hrej out err eq_refl). simpl.
      destruct (config_loaded a) eqn:E; simpl; rewrite ?E; done.
    + destruct (Py.str_contains "__CANCEL__" err); simpl;
        destruct (config_loaded a) eqn:E; simpl; rewrite ?E; done.
  - destruct (config_loaded a) eqn:E; simpl; rewrite ?E; done.
  - destruct (config_loaded a) eqn:E; simpl; rewrite ?E; done.
Qed.

(** What an accepted input leaves behind, whatever the write does. *)
Lemma set_setting_accepted_state s c a (t err : string) :
  dialog c = Completed 0 t err ->
  t <> "" ->
  printer_ip (set_setting s c a) = printer_ip (stored_input s t a) /\
  printer_serial (set_setting s c a) = printer_serial (stored_input s t a) /\
  printer_access_code (set_setting s c a) = printer_access_code (stored_input s t a) /\
  config_loaded (set_setting s c a) = settings_present (stored_input s t a) /\
  timer_running (set_setting s c a) = settings_present (stored_input s t a) /\
  state_file (set_setting s c a) =
    state_file (save_settings (saving c) (stored_input s t a)) /\
  alerts (set_setting s c a) = alerts (save_settings (saving c) (stored_input s t a)).
Proof.
  intros Hd Ht. rewrite (set_setting_accepted _ _ _ _ _ Hd Ht). cbv zeta.
  fold (stored_input s t a).
  set (stored := stored_input s t a).
  set (saved := save_settings (saving c) stored).
  destruct (save_settings_settings (saving c) stored) as (S1 & S2 & S3 & S4 & _ & S6).
  fold saved in S1, S2, S3, S4, S6.
  assert (settings_present saved = settings_present stored) as Hp.
  { unfold settings_present. by rewrite S1, S2, S3. }
  assert (timer_running saved = false) as Hoff.
  { rewrite S6. unfold stored, stored_input. by destruct s. }
  destruct (check_config_settings saved) as (C1 & C2 & C3 & C4 & C5).
  pose proof (check_config_loaded saved) as C6.
  assert (timer_running (_check_config_and_update saved) =
          config_loaded (_check_config_and_update saved) \/
          config_loaded (_check_config_and_update saved) = true) as Ht'.
  { unfold _check_config_and_update.
    destruct (settings_present saved), (config_loaded saved) eqn:E; simpl; auto. }
  rewrite <- Hp, <- S1, <- S2, <- S3, <- C6.
  destruct (config_loaded (_check_config_and_update saved)) eqn:E; simpl.
  - rewrite C1, C2, C3, C4, C5. done.
  - rewrite C1, C2, C3, C4, C5. destruct Ht' as [Ht'|Ht']; [|done].
    rewrite Ht'. done.
Qed.

Lemma fetch_keyboard_interrupt (ip serial access_code : string) (timeout : Z)
      (env : environment) :
  fetch ip serial access_code timeout env = Raise KeyboardInterrupt ->
  first_raise env = Some KeyboardInterrupt.
Proof.
  unfold first_raise.
  destruct (connect_async_raises env) as [e|] eqn:Hc.
  { rewrite (fetch_not_started _ _ _ _ _ _ Hc). congruence. }
  destruct (wait_raises env) as [e|] eqn:Hw.
  { rewrite (fetch_wait_raises _ _ _ _ _ _ Hc Hw). congruence. }
  rewrite (fetch_started _ _ _ _ _ Hc Hw). unfold resolve.
  destruct (from_option Py.truthy_str false _); [discriminate|].
  destruct (negb _); [discriminate|].
  destruct (status_data _) as [data|]; [|discriminate].
  destruct (Py.truthy data); [|discriminate].
  simpl. destruct (status_string data); discriminate.
Qed.

Lemma str_contains_app_r (needle before after : string) :
  Py.str_contains needle after = true ->
  Py.str_contains needle (before +:+ after) = true.
Proof.
  intros H. induction before as [|ch before IH]; simpl; [done|].
  rewrite IH. apply orb_true_r.
Qed.

Lemma status_shape_icon (status_str : string) :
  status_shape status_str ->
  status_str <> "Done" ->
  status_str <> "Unknown" ->
  Py.str_contains "minutes" status_str || Py.str_contains "h" status_str = true.
Proof.
  intros [->|[->|[(m & _ & ->)|(h & m & _ & _ & ->)]]] Hd Hu; try done.
  - rewrite (str_contains_app_r "minutes" _ " minutes"); done.
  - rewrite (str_contains_app_r "h" (Py.str_of_int h)); [apply orb_true_r|done].
Qed.

(** *** Properties of the application *)

(** X8: whatever the state file holds, the application starts in a
    well-formed state (each setting non-empty or the empty string,
    config_loaded set exactly when the three settings are there, the timer
    running exactly when config_loaded is set), with the title "3D Bambu:
    Ready" when configured and "3D ... Login needed" otherwise, no alert
    shown and the file untouched. *)
Theorem init_well_formed f :
  well_formed (init f) /\
  title (init f) =
    (if config_loaded (init f) then "3D Bambu: Ready" else "3D ❓ Login needed") /\
  alerts (init f) = [] /\
  state_file (init f) = f.
Proof.
  unfold init, load_settings. cbn [state_file].
  destruct f as [content|]; [|by repeat split; try (by right)].
  destruct (read_settings content) as [[[ip serial] code]|e];
    [|by repeat split; try (by right)].
  set (a := set_settings _ _ _ _).
  destruct (check_config_settings a) as (C1 & C2 & C3 & C4 & C5).
  pose proof (check_config_loaded a) as C6.
  pose proof (check_config_present a) as C7.
  pose proof (check_config_timer a eq_refl) as C8.
  pose proof (check_config_fresh_title a eq_refl) as C9.
  unfold well_formed. rewrite C1, C2, C3, C4, C5, C6, C7, C8, C9, C6.
  repeat split; try done; apply py_or_clean.
Qed.

(** X9: the application starts configured exactly when the state file
    reads as a mapping whose entries printer_ip, printer_serial and
    printer_access_code are all true in an [if] (non-empty strings, for a
    file the application wrote); a missing file, an unreadable one, one
    that is not a mapping, or one with a setting missing or empty, asks
    for the login. *)
Theorem init_configured_iff f :
  config_loaded (init f) = true <->
  exists m : gmap string json,
    f = Some (Ok (JObj m)) /\
    Py.truthy (default JNull (m !! "printer_ip")) = true /\
    Py.truthy (default JNull (m !! "printer_serial")) = true /\
    Py.truthy (default JNull (m !! "printer_access_code")) = true.
Proof.
  unfold init, load_settings. cbn [state_file].
  destruct f as [[loaded|e]|]; simpl.
  2,3: split; [discriminate|by intros (m & [=] & _)].
  destruct loaded as [| | | | |m]; simpl;
    try (split; [discriminate|by intros (? & [=] & _)]).
  rewrite check_config_loaded. unfold settings_present. cbn [printer_ip printer_serial printer_access_code set_settings].
  unfold DEFAULT_PRINTER_IP, DEFAULT_PRINTER_SERIAL, DEFAULT_PRINTER_ACCESS_CODE.
  rewrite !truthy_py_or, !andb_true_iff.
  split.
  - intros [[Ha Hb] Hc]. by exists m.
  - intros (m' & [= <-] & Ha & Hb & Hc). done.
Qed.

(** X10: a click on any of the three menu items keeps the state
    well-formed, whatever the dialog and the write do; in particular the
    timer runs afterwards exactly when the configuration is complete. *)
Theorem click_keeps_well_formed s c a :
  well_formed a -> well_formed (set_setting s c a).
Proof.
  intros (H1 & H2 & H3 & H4 & H5). unfold well_formed.
  destruct (dialog c) as [rc out err| |] eqn:Hd.
  1: destruct (decide (rc = 0)) as [->|Hrc].
  1: destruct (decide (out = "")) as [->|Hout].
  2: { destruct (set_setting_accepted_state s c a out err Hd Hout)
         as (S1 & S2 & S3 & S4 & S5 & _).
       destruct (assign_clean s out (set_timer false a) Hout H1 H2 H3) as (A1 & A2 & A3).
       fold (stored_input s out a) in A1, A2, A3.
       unfold settings_present at 1. rewrite S1, S2, S3, S4, S5.
       repeat split; done. }
  all: assert (forall t err', dialog c = Completed 0 t err' -> t = "") as Hrej
         by (intros t err'; rewrite Hd; intros H; inversion H; congruence).
  all: destruct (set_setting_rejected s c a Hrej) as (R1 & R2 & R3 & R4 & _ & _ & R7).
  all: unfold settings_present at 1; rewrite R1, R2, R3, R4, R7.
  all: repeat split; done.
Qed.


(** X12: a non-empty input from a dialog that exits with 0 becomes the
    value of the setting clicked, whatever stderr holds; the two other
    settings are kept; config_loaded and the timer follow the presence of
    the three settings; when the write goes through the state file holds
    the three settings and no alert is shown. *)
Theorem accepted_input_is_stored s c a (t err : string) :
  dialog c = Completed 0 t err ->
  t <> "" ->
  current s (set_setting s c a) = JStr t /\
  (forall s', s' <> s -> current s' (set_setting s c a) = current s' a) /\
  config_loaded (set_setting s c a) = settings_present (set_setting s c a) /\
  timer_running (set_setting s c a) = config_loaded (set_setting s c a) /\
  (saving c = Written ->
   state_file (set_setting s c a) = Some (Ok (state_to_save (set_setting s c a))) /\
   alerts (set_setting s c a) = alerts a).
Proof.
  intros Hd Ht.
  destruct (set_setting_accepted_state s c a t err Hd Ht)
    as (S1 & S2 & S3 & S4 & S5 & S6 & S7).
  assert (forall s', current s' (set_setting s c a) =
                     current s' (stored_input s t a)) as Hcur.
  { intros []; simpl; done. }
  destruct (assign_current s t (set_timer false a)) as (A1 & A2 & _).
  fold (stored_input s t a) in A1, A2.
  split; [by rewrite Hcur|].
  split.
  { intros s' Hs'. rewrite Hcur, (A2 s' Hs'). by destruct s'. }
  split.
  { unfold settings_present at 1. by rewrite S1, S2, S3, S4. }
  split; [by rewrite S5, S4|].
  intros Hw. rewrite S6, S7, Hw. simpl.
  split; [|by destruct s].
  unfold state_to_save. by rewrite S1, S2, S3.
Qed.

(** X13: when the write fails, the accepted input is kept in memory all
    the same (the state file is whatever the failed write left), one
    "Save Error" alert is shown, and config_loaded is still brought up to
    date. *)
Theorem failed_save_keeps_new_value s c a (t err : string) (leftover : file) :
  dialog c = Completed 0 t err ->
  t <> "" ->
  saving c = WriteFailed leftover ->
  current s (set_setting s c a) = JStr t /\
  state_file (set_setting s c a) = leftover /\
  alerts (set_setting s c a) = alerts a ++ [SaveError] /\
  config_loaded (set_setting s c a) = settings_present (set_setting s c a).
Proof.
  intros Hd Ht Hw.
  destruct (set_setting_accepted_state s c a t err Hd Ht)
    as (S1 & S2 & S3 & S4 & S5 & S6 & S7).
  destruct (assign_current s t (set_timer false a)) as (A1 & _).
  fold (stored_input s t a) in A1.
  split.
  { rewrite <- A1. destruct s; simpl; done. }
  rewrite S6, S7, Hw. simpl.
  split; [done|]. split; [by destruct s|].
  unfold settings_present at 1. by rewrite S1, S2, S3, S4.
Qed.

(** X14: settings saved are the settings loaded: starting the application
    on the file a successful save_settings wrote gives back the three
    settings, when each of them is non-empty or the empty string, and
    config_loaded and the timer are set exactly when the three are
    non-empty. *)
Theorem save_then_load a :
  clean (printer_ip a) ->
  clean (printer_serial a) ->
  clean (printer_access_code a) ->
  same_settings (init (state_file (save_settings Written a))) a /\
  config_loaded (init (state_file (save_settings Written a))) = settings_present a /\
  timer_running (init (state_file (save_settings Written a))) = settings_present a.
Proof.
  intros H1 H2 H3.
  unfold init, load_settings. cbn [state_file save_settings set_state_file].
  rewrite read_settings_saved.
  unfold DEFAULT_PRINTER_IP, DEFAULT_PRINTER_SERIAL, DEFAULT_PRINTER_ACCESS_CODE.
  rewrite !clean_py_or by done.
  set (b := set_settings _ _ _ _).
  destruct (check_config_settings b) as (C1 & C2 & C3 & _).
  pose proof (check_config_loaded b) as C6.
  pose proof (check_config_timer b eq_refl) as C8.
  unfold same_settings. rewrite C1, C2, C3, C8, C6.
  repeat split; done.
Qed.

(** X15: with the application configured and its settings strings, the
    title update_status sets is decided by the poll: "3D ... Done" for
    "Done", "3D ... Unknown" for "Unknown", the hourglass title for every
    other string the poll can return (the information title of the last
    branch is never used), "3D Bambu: Error" when the poll raises an
    exception; nothing but the title changes. *)
Theorem update_status_title env (untyped : result raised string) a a'
        (ip serial code : string) :
  config_loaded a = true ->
  printer_ip a = JStr ip ->
  printer_serial a = JStr serial ->
  printer_access_code a = JStr code ->
  update_status env untyped a = Ok a' ->
  a' = set_title (title a') a /\
  match fetch ip serial code 10 env with
  | Ok status_str =>
      title a' =
        if bool_decide (status_str = "Done") then "3D ✅ Done"
        else if bool_decide (status_str = "Unknown") then "3D ❓ Unknown"
        else "3D ⏳ " +:+ status_str
  | Raise _ => title a' = "3D Bambu: Error"
  end.
Proof.
  intros Hl Hip Hs Hcode. unfold update_status, call_status.
  rewrite Hl, Hip, Hs, Hcode. simpl negb. cbv iota.
  destruct (fetch ip serial code 10 env) as [status_str|[e|]] eqn:Hf.
  - intros [= <-]. split; [done|]. cbn [title set_title].
    unfold title_of_status.
    case_bool_decide as Hd; [by subst|].
    case_bool_decide as Hu; [by subst|].
    rewrite status_shape_icon; [done| |done|done].
    apply fetch_ok_inv in Hf as [->|[data Hdata]]; [done|].
    by apply status_string_shape with data.
  - intros [= <-]. done.
  - discriminate.
Qed.

(** X16: with the application configured and its settings strings,
    update_status raises only when connect_async or the wait raised
    KeyboardInterrupt, which it lets through; every other exception of the
    poll, those of the classification included, is turned into a title. *)
Theorem update_status_raises_only_interrupt env (untyped : result raised string) a
        (r : raised) (ip serial code : string) :
  printer_ip a = JStr ip ->
  printer_serial a = JStr serial ->
  printer_access_code a = JStr code ->
  update_status env untyped a = Raise r ->
  r = KeyboardInterrupt /\
  config_loaded a = true /\
  first_raise env = Some KeyboardInterrupt.
Proof.
  intros Hip Hs Hcode. unfold update_status, call_status.
  rewrite Hip, Hs, Hcode.
  destruct (config_loaded a); simpl negb; cbv iota; [|discriminate].
  destruct (fetch ip serial code 10 env) as [status_str|[e|]] eqn:Hf; try discriminate.
  intros [= <-]. split; [done|]. split; [done|].
  by apply fetch_keyboard_interrupt with ip serial code 10.
Qed.

End AppFacts.

(** ** Concrete runs of the further properties *)

Lemma returned_string_shape_witness : status_shape "2h 5m".
Proof.
  apply (returned_string_shape "10.0.0.2" "01S00A000000000" "12345678" 10
           (run_of [OnConnect 0; msg running_125] [])).
  vm_compute. reflexivity.
Defined.

Lemma classify_raises_iff_witness : classify paused_null = Raise TypeError.
Proof.
  apply (proj2 (classify_raises_iff paused_null TypeError)).
  right. split; [reflexivity|].
  exists {[ "gcode_state" := JStr "PAUSE"; "mc_remaining_time" := JNull ]}, JNull.
  repeat split; reflexivity.
Defined.

Lemma try_block_exception_propagates_witness :
  sample_fetch interrupted = Raise KeyboardInterrupt /\
  (is_Some (connect_async_raises interrupted) ->
   sample_calls interrupted =
     [TlsSet; TlsInsecureSet true; UsernamePwSet "bblp" "12345678";
      ConnectAsync "10.0.0.2" mqtt_port 60; LoopStop; Disconnect]).
Proof.
  apply (try_block_exception_propagates "10.0.0.2" "01S00A000000000" "12345678" 10
           interrupted KeyboardInterrupt).
  reflexivity.
Defined.

Lemma one_request_per_connect_witness :
  count_if is_subscribe (sample_calls reconnecting) =
    count_if is_connected (delivered reconnecting) /\
  count_if is_publish (sample_calls reconnecting) =
    count_if is_connected (delivered reconnecting).
Proof.
  apply (one_request_per_connect "10.0.0.2" "01S00A000000000" "12345678" 10 reconnecting).
  reflexivity.
Defined.

Lemma result_stems_from_report_witness :
  let env := run_of [OnConnect 0; msg running_125] [] in
  Forall (fun ev => is_failure ev = false) (delivered env) /\
  Exists (fun ev => qualifying ev = true) (during_wait env) /\
  exists earlier report later,
    delivered env = earlier ++ msg report :: later /\
    qualifying (msg report) = true /\
    Forall (fun ev => qualifying ev = false) later /\
    status_string report = Ok "2h 5m".
Proof.
  apply (result_stems_from_report "10.0.0.2" "01S00A000000000" "12345678" 10
           (run_of [OnConnect 0; msg running_125] []) "2h 5m").
  - vm_compute. reflexivity.
  - discriminate.
Defined.

Lemma init_configured_iff_witness : config_loaded sample_app = true.
Proof.
  apply (proj2 (init_configured_iff sample_file)).
  eexists. split; [reflexivity|]. repeat split; reflexivity.
Defined.

Lemma click_keeps_well_formed_witness :
  well_formed (set_ip_address typed_ip (init None)).
Proof.
  apply (click_keeps_well_formed IpAddress typed_ip (init None)).
  repeat split; by right.
Defined.


Lemma accepted_input_is_stored_witness :
  let a' := set_ip_address typed_ip (init None) in
  current IpAddress a' = JStr "10.0.0.7" /\
  (forall s', s' <> IpAddress -> current s' a' = current s' (init None)) /\
  config_loaded a' = settings_present a' /\
  timer_running a' = config_loaded a' /\
  (saving typed_ip = Written ->
   state_file a' = Some (Ok (state_to_save a')) /\
   alerts a' = alerts (init None)).
Proof.
  apply (accepted_input_is_stored IpAddress typed_ip (init None) "10.0.0.7" "").
  - reflexivity.
  - discriminate.
Defined.

Lemma failed_save_keeps_new_value_witness :
  let a' := set_ip_address typed_ip_disk_full sample_app in
  current IpAddress a' = JStr "10.0.0.7" /\
  state_file a' = None /\
  alerts a' = alerts sample_app ++ [SaveError] /\
  config_loaded a' = settings_present a'.
Proof.
  apply (failed_save_keeps_new_value IpAddress typed_ip_disk_full sample_app
           "10.0.0.7" "" None).
  - reflexivity.
  - discriminate.
  - reflexivity.
Defined.

Lemma save_then_load_witness :
  same_settings (init (state_file (save_settings Written sample_app))) sample_app /\
  config_loaded (init (state_file (save_settings Written sample_app))) =
    settings_present sample_app /\
  timer_running (init (state_file (save_settings Written sample_app))) =
    settings_present sample_app.
Proof.
  apply (save_then_load sample_app); left; reflexivity.
Defined.

Lemma update_status_title_witness :
  let env := run_of [OnConnect 0; msg running_125] [] in
  let a' := set_title "3D ⏳ 2h 5m" sample_app in
  a' = set_title (title a') sample_app /\
  match fetch "10.0.0.2" "01S00A000000000" "12345678" 10 env with
  | Ok status_str =>
      title a' =
        if bool_decide (status_str = "Done") then "3D ✅ Done"
        else if bool_decide (status_str = "Unknown") then "3D ❓ Unknown"
        else "3D ⏳ " +:+ status_str
  | Raise _ => title a' = "3D Bambu: Error"
  end.
Proof.
  apply (update_status_title (run_of [OnConnect 0; msg running_125] [])
           (Raise (Exc TypeError)) sample_app (set_title "3D ⏳ 2h 5m" sample_app)
           "10.0.0.2" "01S00A000000000" "12345678").
  - reflexivity.
  - reflexivity.
  - reflexivity.
  - reflexivity.
  - vm_compute. reflexivity.
Defined.

Lemma update_status_raises_only_interrupt_witness :
  KeyboardInterrupt = KeyboardInterrupt /\
  config_loaded sample_app = true /\
  first_raise interrupted = Some KeyboardInterrupt.
Proof.
  apply (update_status_raises_only_interrupt interrupted (Raise (Exc TypeError))
           sample_app KeyboardInterrupt "10.0.0.2" "01S00A000000000" "12345678").
  - reflexivity.
  - reflexivity.
  - reflexivity.
  - vm_compute. reflexivity.
Defined.

Example update_status_stray_array :
  rmap title (update_status (run_of [OnConnect 0; msg stray_array] [])
                (Raise (Exc TypeError)) sample_app) = Ok "3D Bambu: Error".
Proof. vm_compute. reflexivity. Qed.

Example cancel_marker_on_stdout_is_stored :
  printer_ip (set_ip_address
                {| dialog := Completed 0 "__CANCEL__" ""; saving := Written |}
                sample_app) = JStr "__CANCEL__".
Proof. vm_compute. reflexivity. Qed.
